(** * tapip-rs, [src/misc/tap.c]: the TAP device configuration shim

    A shallow embedding of the eleven C functions of [tap.c] and the
    properties their callers rely on.  The functions are glue around
    [ioctl(2)] and [socket(2)]: each builds a [struct ifreq] on its stack,
    hands it to the kernel and copies a field back.  The kernel is not part
    of the repository, so it is a parameter of the development (class
    [Host]); every system call is also appended to a trace, which is how a
    statement speaks about "the request handed to the OS". *)

From Stdlib Require Import ZArith List Lia Bool.
From coqutil Require Import Byte Word.LittleEndianList.
Import ListNotations.
Local Open Scope Z_scope.

(** ** Constants of the system headers [tap.c] includes

    [<net/if.h>], [<linux/if_ether.h>], [<linux/if_tun.h>], [<linux/in.h>]
    and [<sys/ioctl.h>] are Linux headers, not files of the repository; the
    values below are the ones of Linux on a 64-bit ABI. *)

Definition IFNAMSIZ : nat := 16.
Definition ETH_ALEN : nat := 6.

Definition AF_INET : Z := 2.
Definition PF_INET : Z := 2.
Definition SOCK_DGRAM : Z := 2.
Definition IPPROTO_IP : Z := 0.

Definition IFF_UP : Z := 0x1.
Definition IFF_RUNNING : Z := 0x40.
Definition IFF_TAP : Z := 0x0002.
Definition IFF_NO_PI : Z := 0x1000.

Definition SIOCGIFFLAGS : Z := 0x8913.
Definition SIOCSIFFLAGS : Z := 0x8914.
Definition SIOCGIFADDR : Z := 0x8915.
Definition SIOCSIFADDR : Z := 0x8916.
Definition SIOCSIFNETMASK : Z := 0x891c.
Definition SIOCGIFMTU : Z := 0x8921.
Definition SIOCSIFMTU : Z := 0x8922.
Definition SIOCGIFHWADDR : Z := 0x8927.
Definition TUNSETIFF : Z := 0x400454ca.
Definition TUNSETPERSIST : Z := 0x400454cb.
Definition TUNGETIFF : Z := 0x800454d2.

(** [struct ifreq]: [char ifr_name[IFNAMSIZ]] followed by a 24-byte union
    [ifr_ifru].  All members of the union start at its first byte. *)
Definition sizeof_ifreq : nat := 40.
Definition off_ifr_name : nat := 0.
Definition off_ifr_ifru : nat := 16.
(** [ifr_flags] ([short]) and [ifr_mtu] ([int]) are union members. *)
Definition off_ifr_flags : nat := off_ifr_ifru.
Definition off_ifr_mtu : nat := off_ifr_ifru.
(** [ifr_addr] and [ifr_netmask] are [struct sockaddr] members, viewed by the
    code as [struct sockaddr_in]: [sin_family] (2 bytes), [sin_port]
    (2 bytes), [sin_addr.s_addr] (4 bytes), [sin_zero] (8 bytes). *)
Definition off_sin_family : nat := off_ifr_ifru.
Definition off_sin_addr : nat := (off_ifr_ifru + 4)%nat.
(** [ifr_hwaddr] is a [struct sockaddr]: [sa_family] (2 bytes), then
    [sa_data]. *)
Definition off_sa_data : nat := (off_ifr_ifru + 2)%nat.

(** ** Memory: objects are lists of bytes *)

Definition zeros (n : nat) : list byte := repeat Byte.x00 n.

(** The [n] bytes [firstn n m], padded with NULs when [m] is shorter: how an
    object of [n] bytes is read out of a byte list. *)
Definition sized (n : nat) (m : list byte) : list byte := firstn n (m ++ zeros n).

Definition as_ifreq (m : list byte) : list byte := sized sizeof_ifreq m.

Definition load (off n : nat) (m : list byte) : list byte := firstn n (skipn off m).

Definition store (off : nat) (bs m : list byte) : list byte :=
  firstn off m ++ bs ++ skipn (off + length bs) m.

(** [bzero(p, n)]. *)
Definition bzero (m : list byte) (n : nat) : list byte := zeros n ++ skipn n m.

(** [memcpy(dst, src, n)]: the [n] first bytes of [dst] are replaced. *)
Definition memcpy (dst src : list byte) (n : nat) : list byte :=
  firstn n src ++ skipn n dst.

(** The [n] bytes [strncpy(dst, src, n)] writes: the bytes of [src] up to its
    terminating NUL, then NULs up to [n]; no terminator when the string has
    [n] bytes or more.  The end of the list [src] stands for the terminator
    of a string that has no NUL before it. *)
Fixpoint strncpy_bytes (n : nat) (src : list byte) : list byte :=
  match n with
  | O => []
  | S n' =>
      match src with
      | [] => Byte.x00 :: strncpy_bytes n' []
      | c :: rest =>
          if Byte.eqb c Byte.x00 then Byte.x00 :: strncpy_bytes n' []
          else c :: strncpy_bytes n' rest
      end
  end.

Definition strncpy (dst src : list byte) (n : nat) : list byte :=
  strncpy_bytes n src ++ skipn n dst.

(** The C string that starts at [src]: its bytes before the first NUL. *)
Fixpoint c_str (src : list byte) : list byte :=
  match src with
  | [] => []
  | c :: rest => if Byte.eqb c Byte.x00 then [] else c :: c_str rest
  end.

(** ** Integers in memory *)

Inductive endianness := LittleEndian | BigEndian.

Definition enc (e : endianness) (n : nat) (z : Z) : list byte :=
  match e with
  | LittleEndian => le_split n z
  | BigEndian => rev (le_split n z)
  end.

Definition dec_u (e : endianness) (bs : list byte) : Z :=
  match e with
  | LittleEndian => le_combine bs
  | BigEndian => le_combine (rev bs)
  end.

(** Two's complement reading, for [short] and [int] members. *)
Definition dec_s (e : endianness) (bs : list byte) : Z :=
  let u := dec_u e bs in
  let w := 8 * Z.of_nat (length bs) in
  if u <? 2 ^ (w - 1) then u else u - 2 ^ w.

(** ** The host: byte order and kernel *)

Class Host := {
  byte_order : endianness;
  kernel : Type;
  (** [ioctl(fd, request, int)] *)
  sys_ioctl_int : kernel -> Z -> Z -> Z -> kernel * Z;
  (** [ioctl(fd, request, struct ifreq * )]: the kernel may rewrite the record *)
  sys_ioctl_ifr : kernel -> Z -> Z -> list byte -> kernel * Z * list byte;
  (** [socket(domain, type, protocol)] *)
  sys_socket : kernel -> Z -> Z -> Z -> kernel * Z;
  (** the calling thread's [errno] *)
  sys_errno : kernel -> Z
}.

(** A system call as the program issued it, with the value it returned. *)
Inductive syscall :=
| Sys_ioctl_int (fd request arg ret : Z)
| Sys_ioctl_ifr (fd request : Z) (ifr : list byte) (ret : Z)
| Sys_socket (domain type protocol ret : Z).

Definition sys_ret (c : syscall) : Z :=
  match c with
  | Sys_ioctl_int _ _ _ r => r
  | Sys_ioctl_ifr _ _ _ r => r
  | Sys_socket _ _ _ r => r
  end.

Section Program.
Context {H : Host}.

(** What a call runs in: the kernel, the system calls made so far, and the
    bytes that happen to lie where the callee's [struct ifreq ifr] will be
    (a local without initialiser). *)
Record world := {
  w_kernel : kernel;
  w_trace : list syscall;
  w_stack : list byte
}.

Definition M (A : Type) : Type := world -> A * world.

Definition ret {A} (a : A) : M A := fun w => (a, w).

Definition bind {A B} (m : M A) (k : A -> M B) : M B :=
  fun w => let (a, w') := m w in k a w'.

(** The world after a system call [c] that left the kernel in [k']. *)
Definition logged (w : world) (k' : kernel) (c : syscall) : world :=
  {| w_kernel := k'; w_trace := w_trace w ++ [c]; w_stack := w_stack w |}.

Definition ioctl_int (fd request arg : Z) : M Z :=
  fun w =>
    let (k', r) := sys_ioctl_int (w_kernel w) fd request arg in
    (r, logged w k' (Sys_ioctl_int fd request arg r)).

(** [ioctl(fd, request, &ifr)]: the kernel writes within the record, so what
    the host returns is read back as a [struct ifreq]. *)
Definition ioctl (fd request : Z) (ifr : list byte) : M (Z * list byte) :=
  fun w =>
    let '(k', r, ifr') := sys_ioctl_ifr (w_kernel w) fd request ifr in
    ((r, as_ifreq ifr'), logged w k' (Sys_ioctl_ifr fd request ifr r)).

Definition socket (domain type protocol : Z) : M Z :=
  fun w =>
    let (k', r) := sys_socket (w_kernel w) domain type protocol in
    (r, logged w k' (Sys_socket domain type protocol r)).

Definition errno : M Z := fun w => (sys_errno (w_kernel w), w).

(** [struct ifreq ifr;] *)
Definition local_ifreq : M (list byte) := fun w => (as_ifreq (w_stack w), w).

End Program.

Declare Scope tap_scope.
Delimit Scope tap_scope with tap.
Notation "x <- m ;; k" := (bind m (fun x => k))
  (at level 61, m at next level, right associativity) : tap_scope.
Notation "' pat <- m ;; k" := (bind m (fun x => match x with pat => k end))
  (at level 61, pat pattern, m at next level, right associativity) : tap_scope.
Local Open Scope tap_scope.

(** ** The functions of [tap.c]

    A pointer parameter the function writes through is modelled by the
    value the pointee has at the call, and the function returns the value it
    has afterwards next to the C return value.  [name] is the memory at the
    [const char * ]. *)

Section Tap.
Context {H : Host}.

Definition setpersist_tap (fd : Z) : M Z :=
  r <- ioctl_int fd TUNSETPERSIST 1 ;;
  if r <? 0 then errno else ret 0.

Definition getmtu_tap (skfd : Z) (name : list byte) (mtu : Z) : M (Z * Z) :=
  ifr <- local_ifreq ;;
  let ifr := bzero ifr sizeof_ifreq in
  let ifr := store off_ifr_name (strncpy_bytes IFNAMSIZ name) ifr in
  '(r, ifr) <- ioctl skfd SIOCGIFMTU ifr ;;
  if r <? 0 then e <- errno ;; ret (e, mtu)
  else ret (0, dec_s byte_order (load off_ifr_mtu 4 ifr)).

Definition setipaddr_tap (skfd : Z) (name : list byte) (ipaddr : Z) : M Z :=
  ifr <- local_ifreq ;;
  let ifr := bzero ifr sizeof_ifreq in
  let ifr := store off_ifr_name (strncpy_bytes IFNAMSIZ name) ifr in
  let ifr := store off_sin_family (enc byte_order 2 AF_INET) ifr in
  let ifr := store off_sin_addr (enc byte_order 4 ipaddr) ifr in
  '(r, _) <- ioctl skfd SIOCSIFADDR ifr ;;
  if r <? 0 then errno else ret 0.

Definition getipaddr_tap (skfd : Z) (name : list byte) (ipaddr : Z) : M (Z * Z) :=
  ifr <- local_ifreq ;;
  let ifr := bzero ifr sizeof_ifreq in
  let ifr := store off_ifr_name (strncpy_bytes IFNAMSIZ name) ifr in
  '(r, ifr) <- ioctl skfd SIOCGIFADDR ifr ;;
  if r <? 0 then e <- errno ;; ret (e, ipaddr)
  else ret (0, dec_u byte_order (load off_sin_addr 4 ifr)).

Definition setnetmask_tap (skfd : Z) (name : list byte) (netmask : Z) : M Z :=
  ifr <- local_ifreq ;;
  let ifr := bzero ifr sizeof_ifreq in
  let ifr := store off_ifr_name (strncpy_bytes IFNAMSIZ name) ifr in
  let ifr := store off_sin_family (enc byte_order 2 AF_INET) ifr in
  let ifr := store off_sin_addr (enc byte_order 4 netmask) ifr in
  '(r, _) <- ioctl skfd SIOCSIFNETMASK ifr ;;
  if r <? 0 then errno else ret 0.

(** [ifr.ifr_flags] is a [short]: it is promoted to [int] for [|=] and [&=],
    and the result is stored back in two bytes. *)
Definition setflags_tap (skfd : Z) (name : list byte) (flags : Z) (set : Z) : M Z :=
  ifr <- local_ifreq ;;
  let ifr := bzero ifr sizeof_ifreq in
  let ifr := store off_ifr_name (strncpy_bytes IFNAMSIZ name) ifr in
  '(r, ifr) <- ioctl skfd SIOCGIFFLAGS ifr ;;
  if r <? 0 then errno
  else
    let ifr_flags := dec_s byte_order (load off_ifr_flags 2 ifr) in
    let ifr_flags :=
      if negb (set =? 0) then Z.lor ifr_flags flags
      else Z.land ifr_flags (Z.land (Z.lnot flags) 0xffff) in
    let ifr := store off_ifr_flags (enc byte_order 2 ifr_flags) ifr in
    '(r, _) <- ioctl skfd SIOCSIFFLAGS ifr ;;
    if r <? 0 then errno else ret 0.

Definition setup_tap (skfd : Z) (name : list byte) : M Z :=
  setflags_tap skfd name (Z.lor IFF_UP IFF_RUNNING) 1.

Definition gethwaddr_tap (tapfd : Z) (ha : list byte) : M (Z * list byte) :=
  ifr <- local_ifreq ;;
  let ifr := bzero ifr sizeof_ifreq in
  '(r, ifr) <- ioctl tapfd SIOCGIFHWADDR ifr ;;
  if r <? 0 then e <- errno ;; ret (e, ha)
  else ret (0, memcpy ha (skipn off_sa_data ifr) ETH_ALEN).

Definition getname_tap (tapfd : Z) (name : list byte) : M (Z * list byte) :=
  ifr <- local_ifreq ;;
  let ifr := bzero ifr sizeof_ifreq in
  '(r, ifr) <- ioctl tapfd TUNGETIFF ifr ;;
  if r <? 0 then e <- errno ;; ret (e, name)
  else ret (0, strncpy name (load off_ifr_name IFNAMSIZ ifr) IFNAMSIZ).

(** [skfd] is [None] for a NULL pointer, [Some v] for a pointer to an [int]
    that holds [v]. *)
Definition set_tap (skfd : option Z) : M (Z * option Z) :=
  match skfd with
  | None => ret (-1, None)
  | Some _ =>
      fd <- socket PF_INET SOCK_DGRAM IPPROTO_IP ;;
      if fd <? 0 then e <- errno ;; ret (e, Some fd)
      else ret (0, Some fd)
  end.

Definition set_tap_if (fd : Z) (name : list byte) : M Z :=
  ifr <- local_ifreq ;;
  let ifr := bzero ifr sizeof_ifreq in
  let ifr := store off_ifr_flags (enc byte_order 2 (Z.lor IFF_TAP IFF_NO_PI)) ifr in
  let ifr := store off_ifr_name (strncpy_bytes IFNAMSIZ name) ifr in
  '(r, _) <- ioctl fd TUNSETIFF ifr ;;
  if r <? 0 then errno else ret 0.

End Tap.

(** ** Calls, for statements about every operation of the module *)

Inductive call :=
| Call_setpersist_tap (fd : Z)
| Call_getmtu_tap (skfd : Z) (name : list byte) (mtu : Z)
| Call_setipaddr_tap (skfd : Z) (name : list byte) (ipaddr : Z)
| Call_getipaddr_tap (skfd : Z) (name : list byte) (ipaddr : Z)
| Call_setnetmask_tap (skfd : Z) (name : list byte) (netmask : Z)
| Call_setflags_tap (skfd : Z) (name : list byte) (flags set : Z)
| Call_setup_tap (skfd : Z) (name : list byte)
| Call_gethwaddr_tap (tapfd : Z) (ha : list byte)
| Call_getname_tap (tapfd : Z) (name : list byte)
| Call_set_tap (skfd : option Z)
| Call_set_tap_if (fd : Z) (name : list byte).

(** What the caller holds after a call: the C return value and the contents
    of the object behind the output pointer, when the function has one. *)
Inductive output :=
| Out_none
| Out_int (v : Z)
| Out_bytes (b : list byte)
| Out_fd (p : option Z).

Section Invoke.
Context {H : Host}.

Definition invoke (c : call) : M (Z * output) :=
  match c with
  | Call_setpersist_tap fd =>
      r <- setpersist_tap fd ;; ret (r, Out_none)
  | Call_getmtu_tap skfd name mtu =>
      '(r, v) <- getmtu_tap skfd name mtu ;; ret (r, Out_int v)
  | Call_setipaddr_tap skfd name ipaddr =>
      r <- setipaddr_tap skfd name ipaddr ;; ret (r, Out_none)
  | Call_getipaddr_tap skfd name ipaddr =>
      '(r, v) <- getipaddr_tap skfd name ipaddr ;; ret (r, Out_int v)
  | Call_setnetmask_tap skfd name netmask =>
      r <- setnetmask_tap skfd name netmask ;; ret (r, Out_none)
  | Call_setflags_tap skfd name flags set =>
      r <- setflags_tap skfd name flags set ;; ret (r, Out_none)
  | Call_setup_tap skfd name =>
      r <- setup_tap skfd name ;; ret (r, Out_none)
  | Call_gethwaddr_tap tapfd ha =>
      '(r, b) <- gethwaddr_tap tapfd ha ;; ret (r, Out_bytes b)
  | Call_getname_tap tapfd name =>
      '(r, b) <- getname_tap tapfd name ;; ret (r, Out_bytes b)
  | Call_set_tap skfd =>
      '(r, p) <- set_tap skfd ;; ret (r, Out_fd p)
  | Call_set_tap_if fd name =>
      r <- set_tap_if fd name ;; ret (r, Out_none)
  end.

(** The system calls a run added to the trace. *)
Definition issued (w w' : world) : list syscall :=
  skipn (length (w_trace w)) (w_trace w').

End Invoke.

(** The record of a request that carries a name: [Some] for the calls that
    copy their [name] argument into [ifr_name]. *)
Definition name_of_call (c : call) : option (list byte) :=
  match c with
  | Call_getmtu_tap _ name _ => Some name
  | Call_setipaddr_tap _ name _ => Some name
  | Call_getipaddr_tap _ name _ => Some name
  | Call_setnetmask_tap _ name _ => Some name
  | Call_setflags_tap _ name _ _ => Some name
  | Call_setup_tap _ name => Some name
  | Call_set_tap_if _ name => Some name
  | _ => None
  end.

(** The [struct ifreq] of the [n]-th system call of a list, when that call
    is an [ioctl] on such a record. *)
Definition request_of (c : syscall) : option (list byte) :=
  match c with
  | Sys_ioctl_ifr _ _ ifr _ => Some ifr
  | _ => None
  end.

Definition first_request (l : list syscall) : option (list byte) :=
  match l with
  | c :: _ => request_of c
  | [] => None
  end.

(** ** A reference host

    A small model of the operating system side of the requests, after the
    spec's description of it (the kernel is not part of the repository); it
    is the host on which the properties below are exercised.  It keeps the
    interface table the spec describes: each interface has a name, a flags word, an IPv4 address,
    a netmask, an MTU and a hardware address; a configuration request names
    its interface in [ifr_name]; a request on an interface that does not
    exist, or through a handle that is not open, fails and sets [errno]. *)

Module Ref.

Definition ENODEV : Z := 19.
Definition EBADF : Z := 9.
Definition EINVAL : Z := 22.
Definition EBADFD : Z := 77.
Definition EBUSY : Z := 16.
Definition ARPHRD_ETHER : Z := 1.

Record iface := {
  if_flags : Z;
  if_addr : list byte;
  if_netmask : list byte;
  if_mtu : Z;
  if_hwaddr : list byte
}.

Record state := {
  k_ifaces : list (list byte * iface);
  k_socks : list Z;
  k_taps : list (Z * list byte);
  k_busy : list Z;
  k_persist : list Z;
  k_next_fd : Z;
  k_errno : Z
}.

Fixpoint bytes_eqb (a b : list byte) : bool :=
  match a, b with
  | [], [] => true
  | x :: a', y :: b' => Byte.eqb x y && bytes_eqb a' b'
  | _, _ => false
  end.

Fixpoint if_find (n : list byte) (t : list (list byte * iface)) : option iface :=
  match t with
  | [] => None
  | (m, i) :: t' => if bytes_eqb n m then Some i else if_find n t'
  end.

Fixpoint if_update (n : list byte) (f : iface -> iface)
    (t : list (list byte * iface)) : list (list byte * iface) :=
  match t with
  | [] => []
  | (m, i) :: t' =>
      if bytes_eqb n m then (m, f i) :: t' else (m, i) :: if_update n f t'
  end.

Fixpoint tap_find (fd : Z) (t : list (Z * list byte)) : option (list byte) :=
  match t with
  | [] => None
  | (g, n) :: t' => if fd =? g then Some n else tap_find fd t'
  end.

Definition mem_fd (fd : Z) (l : list Z) : bool := existsb (Z.eqb fd) l.

Definition fail (k : state) (e : Z) : state :=
  {| k_ifaces := k_ifaces k; k_socks := k_socks k; k_taps := k_taps k;
     k_busy := k_busy k; k_persist := k_persist k;
     k_next_fd := k_next_fd k; k_errno := e |}.

Definition with_ifaces (k : state) (t : list (list byte * iface)) : state :=
  {| k_ifaces := t; k_socks := k_socks k; k_taps := k_taps k;
     k_busy := k_busy k; k_persist := k_persist k;
     k_next_fd := k_next_fd k; k_errno := k_errno k |}.

Definition set_flags (v : Z) (i : iface) : iface :=
  {| if_flags := v; if_addr := if_addr i; if_netmask := if_netmask i;
     if_mtu := if_mtu i; if_hwaddr := if_hwaddr i |}.
Definition set_addr (v : list byte) (i : iface) : iface :=
  {| if_flags := if_flags i; if_addr := v; if_netmask := if_netmask i;
     if_mtu := if_mtu i; if_hwaddr := if_hwaddr i |}.
Definition set_netmask (v : list byte) (i : iface) : iface :=
  {| if_flags := if_flags i; if_addr := if_addr i; if_netmask := v;
     if_mtu := if_mtu i; if_hwaddr := if_hwaddr i |}.
Definition set_mtu (v : Z) (i : iface) : iface :=
  {| if_flags := if_flags i; if_addr := if_addr i; if_netmask := if_netmask i;
     if_mtu := v; if_hwaddr := if_hwaddr i |}.

(** The interface a request names: the C string in [ifr_name]. *)
Definition req_name (ifr : list byte) : list byte :=
  c_str (load off_ifr_name IFNAMSIZ ifr).

Definition sockaddr_in (e : endianness) (a : list byte) : list byte :=
  enc e 2 AF_INET ++ zeros 2 ++ sized 4 a ++ zeros 8.

(** A request through the control socket [fd] on the interface [ifr] names:
    [get] fills the record from the interface, [upd] changes the interface. *)
Definition on_iface (k : state) (fd : Z) (ifr : list byte)
    (get : iface -> list byte) (upd : iface -> iface) : state * Z * list byte :=
  if mem_fd fd (k_socks k) then
    match if_find (req_name ifr) (k_ifaces k) with
    | Some i =>
        (with_ifaces k (if_update (req_name ifr) upd (k_ifaces k)), 0, get i)
    | None => (fail k ENODEV, -1, ifr)
    end
  else (fail k EBADF, -1, ifr).

(** A request through a device handle on the interface attached to it. *)
Definition on_tap (k : state) (fd : Z) (ifr : list byte)
    (get : list byte -> iface -> list byte) : state * Z * list byte :=
  match tap_find fd (k_taps k) with
  | Some n =>
      match if_find n (k_ifaces k) with
      | Some i => (k, 0, get n i)
      | None => (fail k EBADFD, -1, ifr)
      end
  | None => (fail k EBADFD, -1, ifr)
  end.

Definition new_iface (flags : Z) : iface :=
  {| if_flags := flags; if_addr := zeros 4; if_netmask := zeros 4;
     if_mtu := 1500;
     if_hwaddr := [Byte.x02; Byte.x00; Byte.x00; Byte.x00; Byte.x00; Byte.x01] |}.

(** The name the kernel gives to a device attached without one. *)
Definition default_name : list byte := [Byte.x74; Byte.x61; Byte.x70; Byte.x30].

Definition attach (e : endianness) (k : state) (fd : Z) (ifr : list byte)
    : state * Z * list byte :=
  let n := match req_name ifr with [] => default_name | n => n end in
  match if_find n (k_ifaces k) with
  | Some _ => (fail k EBUSY, -1, ifr)
  | None =>
      ({| k_ifaces := (n, new_iface 0) :: k_ifaces k;
          k_socks := k_socks k;
          k_taps := (fd, n) :: k_taps k;
          k_busy := k_busy k; k_persist := k_persist k;
          k_next_fd := k_next_fd k; k_errno := k_errno k |},
       0, store off_ifr_name (strncpy_bytes IFNAMSIZ n) ifr)
  end.

Definition ioctl_ifr (e : endianness) (k : state) (fd request : Z)
    (ifr : list byte) : state * Z * list byte :=
  let ifr := as_ifreq ifr in
  if request =? SIOCGIFFLAGS then
    on_iface k fd ifr
      (fun i => store off_ifr_flags (enc e 2 (if_flags i)) ifr) (fun i => i)
  else if request =? SIOCSIFFLAGS then
    on_iface k fd ifr (fun _ => ifr)
      (set_flags (dec_u e (load off_ifr_flags 2 ifr)))
  else if request =? SIOCGIFADDR then
    on_iface k fd ifr
      (fun i => store off_ifr_ifru (sockaddr_in e (if_addr i)) ifr) (fun i => i)
  else if request =? SIOCSIFADDR then
    if dec_u e (load off_sin_family 2 ifr) =? AF_INET then
      on_iface k fd ifr (fun _ => ifr) (set_addr (load off_sin_addr 4 ifr))
    else (fail k EINVAL, -1, ifr)
  else if request =? SIOCSIFNETMASK then
    on_iface k fd ifr (fun _ => ifr) (set_netmask (load off_sin_addr 4 ifr))
  else if request =? SIOCGIFMTU then
    on_iface k fd ifr
      (fun i => store off_ifr_mtu (enc e 4 (if_mtu i)) ifr) (fun i => i)
  else if request =? SIOCSIFMTU then
    on_iface k fd ifr (fun _ => ifr)
      (set_mtu (dec_s e (load off_ifr_mtu 4 ifr)))
  else if request =? SIOCGIFHWADDR then
    on_tap k fd ifr
      (fun _ i => store off_ifr_ifru
                    (enc e 2 ARPHRD_ETHER ++ sized ETH_ALEN (if_hwaddr i)) ifr)
  else if request =? TUNGETIFF then
    on_tap k fd ifr
      (fun n _ => store off_ifr_flags (enc e 2 (Z.lor IFF_TAP IFF_NO_PI))
                    (store off_ifr_name (strncpy_bytes IFNAMSIZ n) ifr))
  else if request =? TUNSETIFF then attach e k fd ifr
  else (fail k EINVAL, -1, ifr).

(** [TUNSETPERSIST]: refused on a device that is in use elsewhere. *)
Definition ioctl_int (k : state) (fd request arg : Z) : state * Z :=
  if request =? TUNSETPERSIST then
    match tap_find fd (k_taps k) with
    | Some _ =>
        if mem_fd fd (k_busy k) then (fail k EBUSY, -1)
        else
          ({| k_ifaces := k_ifaces k; k_socks := k_socks k;
              k_taps := k_taps k; k_busy := k_busy k;
              k_persist := if arg =? 0 then k_persist k else fd :: k_persist k;
              k_next_fd := k_next_fd k; k_errno := k_errno k |}, 0)
    | None => (fail k EBADFD, -1)
    end
  else (fail k EINVAL, -1).

Definition socket (k : state) (domain type protocol : Z) : state * Z :=
  if (domain =? PF_INET) && (type =? SOCK_DGRAM) then
    ({| k_ifaces := k_ifaces k; k_socks := k_next_fd k :: k_socks k;
        k_taps := k_taps k; k_busy := k_busy k; k_persist := k_persist k;
        k_next_fd := k_next_fd k + 1; k_errno := k_errno k |}, k_next_fd k)
  else (fail k EINVAL, -1).

Definition host (e : endianness) : Host :=
  {| byte_order := e;
     kernel := state;
     sys_ioctl_int := ioctl_int;
     sys_ioctl_ifr := ioctl_ifr e;
     sys_socket := socket;
     sys_errno := k_errno |}.

(** A freshly booted host on which the device was opened as descriptor 3. *)
Definition boot : state :=
  {| k_ifaces := []; k_socks := []; k_taps := []; k_busy := [];
     k_persist := []; k_next_fd := 4; k_errno := 0 |}.

Definition start (e : endianness) (junk : list byte) : @world (host e) :=
  @Build_world (host e) boot [] junk.

(** The interface name [tap0], and the host once the device is attached
    under that name and a control socket is open (descriptor 4). *)
Definition tap0 : list byte := default_name.

Definition ready (e : endianness) (junk : list byte) : @world (host e) :=
  snd (@set_tap (host e) (Some 0)
         (snd (@set_tap_if (host e) 3 [] (start e junk)))).

(** A name of seventeen bytes, one more than [ifr_name] holds. *)
Definition long_name : list byte := repeat Byte.x61 17.

(** The scenario of the spec: attach without a name, read the name back,
    open the control socket, set 10.0.0.1/24, bring the interface up, read
    the address back.  The result is the list of return values, the name and
    the address as it lies in memory. *)
Definition scenario (e : endianness) : list Z * list byte * list byte * state :=
  let H := host e in
  let '(x, w) :=
    (r1 <- set_tap_if 3 [] ;;
     '(r2, nm) <- getname_tap 3 (zeros IFNAMSIZ) ;;
     '(r3, sk) <- set_tap (Some 0) ;;
     let sk := match sk with Some s => s | None => -1 end in
     r4 <- setipaddr_tap sk nm (dec_u e [Byte.x0a; Byte.x00; Byte.x00; Byte.x01]) ;;
     r5 <- setnetmask_tap sk nm (dec_u e [Byte.xff; Byte.xff; Byte.xff; Byte.x00]) ;;
     r6 <- setup_tap sk nm ;;
     '(r7, a) <- getipaddr_tap sk nm 0 ;;
     ret ([r1; r2; r3; r4; r5; r6; r7], c_str nm, enc e 4 a)) (start e [])
  in (x, w_kernel w).

End Ref.

(** ** What the round trips ask of a kernel

    A successful [SIOCSIFADDR] on an interface makes the next [SIOCGIFADDR]
    on the interface of that name succeed and report the address that was
    set; likewise [SIOCSIFMTU] and [SIOCGIFMTU]. *)

Definition same_name (q q' : list byte) : Prop :=
  load off_ifr_name IFNAMSIZ q' = load off_ifr_name IFNAMSIZ q.

Definition addr_law (H : Host) : Prop :=
  forall k fd q k1 r1 reply1,
    length q = sizeof_ifreq ->
    dec_u byte_order (load off_sin_family 2 q) = AF_INET ->
    sys_ioctl_ifr k fd SIOCSIFADDR q = (k1, r1, reply1) -> 0 <= r1 ->
    forall q', length q' = sizeof_ifreq -> same_name q q' ->
    exists k2 r2 reply2,
      sys_ioctl_ifr k1 fd SIOCGIFADDR q' = (k2, r2, reply2) /\ 0 <= r2 /\
      load off_sin_addr 4 (as_ifreq reply2) = load off_sin_addr 4 q.

Definition mtu_law (H : Host) : Prop :=
  forall k fd q k1 r1 reply1,
    length q = sizeof_ifreq ->
    sys_ioctl_ifr k fd SIOCSIFMTU q = (k1, r1, reply1) -> 0 <= r1 ->
    forall q', length q' = sizeof_ifreq -> same_name q q' ->
    exists k2 r2 reply2,
      sys_ioctl_ifr k1 fd SIOCGIFMTU q' = (k2, r2, reply2) /\ 0 <= r2 /\
      load off_ifr_mtu 4 (as_ifreq reply2) = load off_ifr_mtu 4 q.

(** What POSIX says of a failed call: [errno] is then set, to a value that
    is not 0. *)
Definition errno_law (H : Host) : Prop :=
  forall k fd request q k' r reply,
    sys_ioctl_ifr k fd request q = (k', r, reply) -> r < 0 -> sys_errno k' <> 0.

(** ** The records the functions hand to the kernel, written out *)

(** Nothing but NULs: [gethwaddr_tap], [getname_tap]. *)
Definition req_blank : list byte := zeros sizeof_ifreq.

(** The name and nothing else: [getmtu_tap], [getipaddr_tap], and the read
    of [setflags_tap]. *)
Definition req_named (name : list byte) : list byte :=
  strncpy_bytes IFNAMSIZ name ++ zeros 24.

(** The name and a [struct sockaddr_in] with family [AF_INET], port 0 and
    address [a]: [setipaddr_tap], [setnetmask_tap]. *)
Definition req_sockaddr (e : endianness) (name : list byte) (a : Z) : list byte :=
  strncpy_bytes IFNAMSIZ name ++ enc e 2 AF_INET ++ zeros 2 ++ enc e 4 a ++ zeros 16.

(** The name and the mode bits: [set_tap_if]. *)
Definition req_attach (e : endianness) (name : list byte) : list byte :=
  strncpy_bytes IFNAMSIZ name ++ enc e 2 (Z.lor IFF_TAP IFF_NO_PI) ++ zeros 22.

(** The flags word [setflags_tap] computes from the word [F] it read. *)
Definition new_flags (F flags set : Z) : Z :=
  if set =? 0 then Z.land F (Z.lnot flags) else Z.lor F flags.

(** The record [setflags_tap] writes back: the record the kernel returned
    for the read, with the new word in [ifr_flags]. *)
Definition writeback (e : endianness) (reply : list byte) (flags set : Z) : list byte :=
  store off_ifr_flags
    (enc e 2 (new_flags (dec_u e (load off_ifr_flags 2 reply)) flags set)) reply.

(** The same record with the word as the code computes it: on the [short]
    promoted to [int], and stored back in two bytes. *)
Definition stored_writeback (e : endianness) (reply : list byte) (flags set : Z)
    : list byte :=
  store off_ifr_flags
    (enc e 2
       (if negb (set =? 0)
        then Z.lor (dec_s e (load off_ifr_flags 2 reply)) flags
        else Z.land (dec_s e (load off_ifr_flags 2 reply))
               (Z.land (Z.lnot flags) 0xffff))) reply.

(** The record a call builds for its first request, for the calls that
    build one. *)
Definition built_request (e : endianness) (c : call) : option (list byte) :=
  match c with
  | Call_setpersist_tap _ => None
  | Call_getmtu_tap _ name _ => Some (req_named name)
  | Call_setipaddr_tap _ name a => Some (req_sockaddr e name a)
  | Call_getipaddr_tap _ name _ => Some (req_named name)
  | Call_setnetmask_tap _ name a => Some (req_sockaddr e name a)
  | Call_setflags_tap _ name _ _ => Some (req_named name)
  | Call_setup_tap _ name => Some (req_named name)
  | Call_gethwaddr_tap _ _ => Some req_blank
  | Call_getname_tap _ _ => Some req_blank
  | Call_set_tap _ => None
  | Call_set_tap_if _ name => Some (req_attach e name)
  end.

(** ** Calls: descriptor and name *)

(** The descriptor a call is given. *)
Definition fd_of_call (c : call) : option Z :=
  match c with
  | Call_setpersist_tap fd => Some fd
  | Call_getmtu_tap skfd _ _ => Some skfd
  | Call_setipaddr_tap skfd _ _ => Some skfd
  | Call_getipaddr_tap skfd _ _ => Some skfd
  | Call_setnetmask_tap skfd _ _ => Some skfd
  | Call_setflags_tap skfd _ _ _ => Some skfd
  | Call_setup_tap skfd _ => Some skfd
  | Call_gethwaddr_tap tapfd _ => Some tapfd
  | Call_getname_tap tapfd _ => Some tapfd
  | Call_set_tap _ => None
  | Call_set_tap_if fd _ => Some fd
  end.

(** The same call on another interface name (the calls without a [name]
    input are left as they are). *)
Definition with_name (c : call) (n : list byte) : call :=
  match c with
  | Call_getmtu_tap skfd _ mtu => Call_getmtu_tap skfd n mtu
  | Call_setipaddr_tap skfd _ a => Call_setipaddr_tap skfd n a
  | Call_getipaddr_tap skfd _ a => Call_getipaddr_tap skfd n a
  | Call_setnetmask_tap skfd _ a => Call_setnetmask_tap skfd n a
  | Call_setflags_tap skfd _ flags set => Call_setflags_tap skfd n flags set
  | Call_setup_tap skfd _ => Call_setup_tap skfd n
  | Call_set_tap_if fd _ => Call_set_tap_if fd n
  | _ => c
  end.

(** What a system call made by [c] may be: an [ioctl] on the descriptor of
    [c], with a whole [struct ifreq] or with [TUNSETPERSIST] and 1, or the
    one [socket] call of [set_tap]. *)
Definition own_syscall (c : call) (e : syscall) : Prop :=
  match e with
  | Sys_ioctl_ifr fd _ q _ => fd_of_call c = Some fd /\ length q = sizeof_ifreq
  | Sys_ioctl_int fd request arg _ =>
      fd_of_call c = Some fd /\ request = TUNSETPERSIST /\ arg = 1
  | Sys_socket domain type protocol _ =>
      fd_of_call c = None
      /\ domain = PF_INET /\ type = SOCK_DGRAM /\ protocol = IPPROTO_IP
  end.

(** ** What idempotence of the flag functions asks of a kernel

    A successful [SIOCSIFFLAGS] makes the next [SIOCGIFFLAGS] on the
    interface of that name succeed and report the word that was set; and a
    successful [SIOCGIFFLAGS] leaves [ifr_name] as it was. *)

Definition flags_law (H : Host) : Prop :=
  forall k fd q k1 r1 reply1,
    length q = sizeof_ifreq ->
    sys_ioctl_ifr k fd SIOCSIFFLAGS q = (k1, r1, reply1) -> 0 <= r1 ->
    forall q', length q' = sizeof_ifreq -> same_name q q' ->
    exists k2 r2 reply2,
      sys_ioctl_ifr k1 fd SIOCGIFFLAGS q' = (k2, r2, reply2) /\ 0 <= r2 /\
      load off_ifr_flags 2 (as_ifreq reply2) = load off_ifr_flags 2 q.

Definition name_law (H : Host) : Prop :=
  forall k fd q k' r reply,
    length q = sizeof_ifreq ->
    sys_ioctl_ifr k fd SIOCGIFFLAGS q = (k', r, reply) -> 0 <= r ->
    load off_ifr_name IFNAMSIZ (as_ifreq reply) = load off_ifr_name IFNAMSIZ q.

(** * Properties *)

(** ** Bytes and integers *)

Lemma length_zeros n : length (zeros n) = n.
Proof. apply repeat_length. Qed.

Lemma length_sized n m : length (sized n m) = n.
Proof.
  unfold sized. rewrite length_firstn, length_app, length_zeros. lia.
Qed.

Lemma length_as_ifreq m : length (as_ifreq m) = sizeof_ifreq.
Proof. apply length_sized. Qed.

Lemma sized_exact n m : length m = n -> sized n m = m.
Proof.
  intros L. unfold sized. rewrite firstn_app, L, Nat.sub_diag.
  rewrite firstn_all2 by lia. simpl. apply app_nil_r.
Qed.

Lemma length_strncpy_bytes n : forall src, length (strncpy_bytes n src) = n.
Proof.
  induction n as [|n IH]; intros src; simpl; [reflexivity|].
  destruct src as [|c rest]; simpl; [now rewrite IH|].
  destruct (Byte.eqb c Byte.x00); simpl; now rewrite IH.
Qed.

Lemma strncpy_bytes_nil n : strncpy_bytes n [] = zeros n.
Proof.
  induction n as [|n IH]; simpl; [reflexivity|]. now rewrite IH.
Qed.

Lemma firstn_zeros k : forall a, (k <= a)%nat -> firstn k (zeros a) = zeros k.
Proof.
  unfold zeros.
  induction k as [|k IH]; intros a L; [reflexivity|].
  destruct a as [|a]; [lia|]. simpl. f_equal. apply IH. lia.
Qed.

Lemma firstn_pad n l a :
  (n <= a)%nat -> firstn n (l ++ zeros a) = firstn n (l ++ zeros n).
Proof.
  intros L. rewrite !firstn_app. f_equal.
  rewrite !firstn_zeros by lia. reflexivity.
Qed.

(** [strncpy] copies the string and pads with NULs, up to [n] bytes. *)
Lemma strncpy_bytes_c_str n : forall src,
  strncpy_bytes n src = firstn n (c_str src ++ zeros n).
Proof.
  induction n as [|n IH]; intros src; [reflexivity|].
  assert (Z0 : Byte.x00 :: strncpy_bytes n [] = firstn (S n) (zeros (S n))).
  { rewrite strncpy_bytes_nil, firstn_zeros by lia. reflexivity. }
  destruct src as [|c rest]; [exact Z0|].
  simpl. destruct (Byte.eqb c Byte.x00); [exact Z0|].
  simpl. f_equal. rewrite IH. symmetry.
  apply (firstn_pad n (c_str rest) (S n)). lia.
Qed.

(** A string that fits is copied whole, and padded. *)
Lemma strncpy_bytes_fits n src :
  (length (c_str src) <= n)%nat ->
  strncpy_bytes n src = c_str src ++ zeros (n - length (c_str src)).
Proof.
  intros L. rewrite strncpy_bytes_c_str, firstn_app.
  rewrite firstn_all2 by lia. f_equal. apply firstn_zeros. lia.
Qed.

(** A string that does not fit loses what is beyond its first [n] bytes. *)
Lemma strncpy_bytes_long n src :
  (n <= length (c_str src))%nat ->
  strncpy_bytes n src = firstn n (c_str src).
Proof.
  intros L. rewrite strncpy_bytes_c_str, firstn_app.
  replace (n - length (c_str src))%nat with 0%nat by lia.
  simpl. apply app_nil_r.
Qed.

Lemma length_enc e n z : length (enc e n z) = n.
Proof.
  destruct e; unfold enc; [|rewrite length_rev]; apply length_le_split.
Qed.

Lemma dec_u_enc e n z : dec_u e (enc e n z) = z mod 2 ^ (8 * Z.of_nat n).
Proof.
  destruct e; unfold dec_u, enc; [|rewrite rev_involutive];
    rewrite le_combine_split, (Z.mul_comm 8); reflexivity.
Qed.

Lemma enc_dec_u e bs : enc e (length bs) (dec_u e bs) = bs.
Proof.
  destruct e; unfold dec_u, enc; [apply split_le_combine|].
  rewrite <- (length_rev bs), split_le_combine. apply rev_involutive.
Qed.

Lemma dec_u_range e bs : 0 <= dec_u e bs < 2 ^ (8 * Z.of_nat (length bs)).
Proof.
  destruct e; unfold dec_u; [apply le_combine_bound|].
  rewrite <- (length_rev bs). apply le_combine_bound.
Qed.

(** The bytes of an integer only depend on its residue. *)
Lemma enc_mod e n z : enc e n (z mod 2 ^ (8 * Z.of_nat n)) = enc e n z.
Proof.
  rewrite <- (dec_u_enc e n z).
  rewrite <- (length_enc e n z) at 1. apply enc_dec_u.
Qed.

Lemma dec_s_mod e bs :
  (dec_s e bs) mod 2 ^ (8 * Z.of_nat (length bs)) = dec_u e bs.
Proof.
  unfold dec_s. pose proof (dec_u_range e bs) as R.
  set (w := 8 * Z.of_nat (length bs)) in *.
  destruct (dec_u e bs <? 2 ^ (w - 1)).
  - apply Z.mod_small. exact R.
  - replace (dec_u e bs - 2 ^ w) with (dec_u e bs + (-1) * 2 ^ w) by lia.
    rewrite Z.mod_add by lia. apply Z.mod_small. exact R.
Qed.

(** ** The records the functions build *)

Lemma store_0 bs m : store 0 bs m = bs ++ skipn (length bs) m.
Proof. reflexivity. Qed.

Lemma store_app_r a off bs b :
  store (length a + off) bs (a ++ b) = a ++ store off bs b.
Proof.
  unfold store. rewrite firstn_app, skipn_app.
  rewrite firstn_all2, skipn_all2 by lia.
  replace (length a + off - length a)%nat with off by lia.
  replace (length a + off + length bs - length a)%nat with (off + length bs)%nat by lia.
  simpl. now rewrite <- app_assoc.
Qed.

Lemma length_store off bs m :
  (off + length bs <= length m)%nat -> length (store off bs m) = length m.
Proof.
  intros L. unfold store.
  rewrite !length_app, length_firstn, length_skipn. lia.
Qed.

Lemma load_store off bs m :
  (off <= length m)%nat -> load off (length bs) (store off bs m) = bs.
Proof.
  intros L. unfold load, store.
  rewrite skipn_app, length_firstn.
  rewrite skipn_all2 by (rewrite length_firstn; lia).
  replace (off - Nat.min off (length m))%nat with 0%nat by lia.
  simpl. rewrite firstn_app, Nat.sub_diag, firstn_all2 by lia.
  simpl. apply app_nil_r.
Qed.

Lemma bzero_as_ifreq m : bzero (as_ifreq m) sizeof_ifreq = req_blank.
Proof.
  unfold bzero. rewrite skipn_all2 by (rewrite length_as_ifreq; lia).
  apply app_nil_r.
Qed.

Lemma built_named name m :
  store off_ifr_name (strncpy_bytes IFNAMSIZ name)
    (bzero (as_ifreq m) sizeof_ifreq) = req_named name.
Proof.
  rewrite bzero_as_ifreq. unfold off_ifr_name. rewrite store_0.
  rewrite length_strncpy_bytes. reflexivity.
Qed.

Lemma built_sockaddr e name a m :
  store off_sin_addr (enc e 4 a)
    (store off_sin_family (enc e 2 AF_INET)
       (store off_ifr_name (strncpy_bytes IFNAMSIZ name)
          (bzero (as_ifreq m) sizeof_ifreq))) = req_sockaddr e name a.
Proof.
  rewrite built_named. unfold req_named, req_sockaddr.
  set (N := strncpy_bytes IFNAMSIZ name).
  assert (LN : length N = 16%nat) by apply length_strncpy_bytes.
  replace off_sin_family with (length N + 0)%nat by (rewrite LN; reflexivity).
  rewrite store_app_r, store_0, length_enc.
  change (skipn 2 (zeros 24)) with (zeros 2 ++ zeros 20).
  set (X := enc e 2 AF_INET).
  assert (LX : length (X ++ zeros 2) = 4%nat)
    by (rewrite length_app, length_zeros; unfold X; rewrite length_enc; reflexivity).
  replace off_sin_addr with (length N + (length (X ++ zeros 2) + 0))%nat
    by (rewrite LN, LX; reflexivity).
  rewrite store_app_r, app_assoc, store_app_r, store_0, length_enc.
  change (skipn 4 (zeros 20)) with (zeros 16).
  now rewrite <- app_assoc.
Qed.

Lemma built_attach e name m :
  store off_ifr_name (strncpy_bytes IFNAMSIZ name)
    (store off_ifr_flags (enc e 2 (Z.lor IFF_TAP IFF_NO_PI))
       (bzero (as_ifreq m) sizeof_ifreq)) = req_attach e name.
Proof.
  rewrite bzero_as_ifreq. unfold req_attach, req_blank.
  change (zeros sizeof_ifreq) with (zeros 16 ++ zeros 24).
  replace off_ifr_flags with (length (zeros 16) + 0)%nat by reflexivity.
  rewrite store_app_r, (store_0 (enc e 2 _) (zeros 24)), length_enc.
  unfold off_ifr_name. rewrite store_0, length_strncpy_bytes.
  change IFNAMSIZ with (length (zeros 16)) at 2.
  rewrite skipn_app, skipn_all, Nat.sub_diag. reflexivity.
Qed.

(** ** The flags word *)

Lemma testbit_high x n i : 0 <= x < 2 ^ n -> 0 <= n <= i -> Z.testbit x i = false.
Proof.
  intros R L. rewrite <- (Z.mod_small x (2 ^ n)) by exact R.
  now apply Z.mod_pow2_bits_high.
Qed.

(** A [short] promoted to [int] and the unsigned word of the same two bytes
    have the same sixteen low bits. *)
Lemma testbit_congr x y n i :
  x mod 2 ^ n = y -> 0 <= i < n -> Z.testbit x i = Z.testbit y i.
Proof.
  intros E L. rewrite <- E. symmetry. apply Z.mod_pow2_bits_low. lia.
Qed.

Lemma new_flags_wrap f F flags set :
  f mod 2 ^ 16 = F -> 0 <= F < 2 ^ 16 -> 0 <= flags < 2 ^ 16 ->
  (if negb (set =? 0) then Z.lor f flags
   else Z.land f (Z.land (Z.lnot flags) 0xffff)) mod 2 ^ 16
  = new_flags F flags set.
Proof.
  intros E RF RB. unfold new_flags.
  apply Z.bits_inj'. intros i Hi.
  rewrite Z.testbit_mod_pow2 by lia.
  destruct (Z.ltb_spec i 16) as [L|L]; simpl.
  - destruct (set =? 0); simpl.
    + rewrite !Z.land_spec, Z.lnot_spec by lia.
      rewrite (testbit_congr f F 16 i E) by lia.
      change 0xffff with (Z.ones 16).
      rewrite Z.testbit_ones_nonneg by lia.
      destruct (Z.ltb_spec i 16); [|lia].
      now rewrite andb_true_r.
    + rewrite !Z.lor_spec. now rewrite (testbit_congr f F 16 i E) by lia.
  - destruct (set =? 0).
    + rewrite Z.land_spec, (testbit_high F 16 i) by lia. reflexivity.
    + rewrite Z.lor_spec, (testbit_high F 16 i), (testbit_high flags 16 i) by lia.
      reflexivity.
Qed.

Lemma new_flags_range F flags set :
  0 <= F < 2 ^ 16 -> 0 <= flags < 2 ^ 16 -> 0 <= new_flags F flags set < 2 ^ 16.
Proof.
  intros RF RB.
  rewrite <- (new_flags_wrap F F flags set (Z.mod_small _ _ RF) RF RB).
  apply Z.mod_pos_bound. lia.
Qed.

(** Bits outside [flags] are the ones of [F]. *)
Lemma new_flags_outside F flags set i :
  0 <= i -> Z.testbit flags i = false ->
  Z.testbit (new_flags F flags set) i = Z.testbit F i.
Proof.
  intros Hi Hb. unfold new_flags. destruct (set =? 0).
  - rewrite Z.land_spec, Z.lnot_spec, Hb by lia. apply andb_true_r.
  - rewrite Z.lor_spec, Hb. apply orb_false_r.
Qed.

Lemma stored_flags e reply flags set :
  length reply = sizeof_ifreq -> 0 <= flags < 2 ^ 16 ->
  stored_writeback e reply flags set = writeback e reply flags set.
Proof.
  intros L RB. unfold stored_writeback, writeback. f_equal.
  assert (LL : length (load off_ifr_flags 2 reply) = 2%nat).
  { unfold load. rewrite length_firstn, length_skipn, L. reflexivity. }
  pose proof (dec_u_range e (load off_ifr_flags 2 reply)) as RF.
  pose proof (dec_s_mod e (load off_ifr_flags 2 reply)) as E.
  rewrite LL in RF, E.
  rewrite <- enc_mod.
  change (8 * Z.of_nat 2) with 16 in *.
  now rewrite (new_flags_wrap _ _ flags set E RF RB).
Qed.

Lemma writeback_flags e reply flags set :
  length reply = sizeof_ifreq -> 0 <= flags < 2 ^ 16 ->
  dec_u e (load off_ifr_flags 2 (writeback e reply flags set))
  = new_flags (dec_u e (load off_ifr_flags 2 reply)) flags set.
Proof.
  intros L RB. unfold writeback.
  set (F := dec_u e (load off_ifr_flags 2 reply)).
  rewrite <- (length_enc e 2 (new_flags F flags set)) at 1.
  rewrite load_store by (rewrite L; unfold off_ifr_flags, off_ifr_ifru, sizeof_ifreq; lia).
  rewrite dec_u_enc. apply Z.mod_small.
  assert (LL : length (load off_ifr_flags 2 reply) = 2%nat).
  { unfold load. rewrite length_firstn, length_skipn, L. reflexivity. }
  pose proof (dec_u_range e (load off_ifr_flags 2 reply)) as RF.
  rewrite LL in RF.
  apply new_flags_range; [exact RF | exact RB].
Qed.

(** The write-back leaves the name and everything after the flags word as
    the kernel returned them. *)
Lemma writeback_rest e reply flags set :
  length reply = sizeof_ifreq ->
  firstn off_ifr_flags (writeback e reply flags set) = firstn off_ifr_flags reply
  /\ skipn (off_ifr_flags + 2) (writeback e reply flags set)
     = skipn (off_ifr_flags + 2) reply
  /\ length (writeback e reply flags set) = sizeof_ifreq.
Proof.
  intros L. unfold writeback, store. rewrite length_enc.
  set (X := enc e 2 _).
  assert (LX : length X = 2%nat) by apply length_enc.
  assert (LF : length (firstn off_ifr_flags reply) = off_ifr_flags).
  { rewrite length_firstn, L. reflexivity. }
  repeat split.
  - rewrite firstn_app, LF, Nat.sub_diag, firstn_firstn, Nat.min_id.
    simpl. apply app_nil_r.
  - rewrite skipn_app, LF, skipn_all2 by lia.
    replace (off_ifr_flags + 2 - off_ifr_flags)%nat with (length X + 0)%nat by lia.
    rewrite skipn_app, skipn_all2, Nat.add_0_r, Nat.sub_diag by lia. reflexivity.
  - rewrite !length_app, LF, LX, length_skipn, L. reflexivity.
Qed.

(** ** What each function does, in terms of the kernel's answers *)

Section Runs.
Context {H : Host}.

Lemma issued_same (w : world) : issued w w = [].
Proof. unfold issued. apply skipn_all. Qed.

Lemma issued_logged (w : world) k c : issued w (logged w k c) = [c].
Proof.
  unfold issued, logged. simpl.
  now rewrite skipn_app, skipn_all, Nat.sub_diag.
Qed.

Lemma issued_logged2 (w : world) k1 c1 k2 c2 :
  issued w (logged (logged w k1 c1) k2 c2) = [c1; c2].
Proof.
  unfold issued, logged. simpl.
  now rewrite <- app_assoc, skipn_app, skipn_all, Nat.sub_diag.
Qed.

(** Unfold a function down to the system calls and split on their results. *)
Ltac run_tap :=
  repeat match goal with
    | |- context [sys_ioctl_ifr ?k ?fd ?rq ?q] =>
        destruct (sys_ioctl_ifr k fd rq q) as [[? ?] ?]
    | |- context [sys_ioctl_int ?k ?fd ?rq ?a] =>
        destruct (sys_ioctl_int k fd rq a) as [? ?]
    | |- context [sys_socket ?k ?d ?t ?p] =>
        destruct (sys_socket k d t p) as [? ?]
    | |- context [?r <? 0] => destruct (r <? 0)
    end;
  reflexivity.

Ltac unfold_tap :=
  intros;
  cbv beta iota zeta delta
    [setpersist_tap getmtu_tap setipaddr_tap getipaddr_tap setnetmask_tap
     gethwaddr_tap getname_tap set_tap set_tap_if
     bind ret errno local_ifreq ioctl ioctl_int socket].

Lemma setpersist_tap_run fd w :
  setpersist_tap fd w =
  let (k', r) := sys_ioctl_int (w_kernel w) fd TUNSETPERSIST 1 in
  (if r <? 0 then sys_errno k' else 0,
   logged w k' (Sys_ioctl_int fd TUNSETPERSIST 1 r)).
Proof. unfold_tap. run_tap. Qed.

Lemma getmtu_tap_run skfd name mtu w :
  getmtu_tap skfd name mtu w =
  let '(k', r, reply) := sys_ioctl_ifr (w_kernel w) skfd SIOCGIFMTU (req_named name) in
  (if r <? 0 then (sys_errno k', mtu)
   else (0, dec_s byte_order (load off_ifr_mtu 4 (as_ifreq reply))),
   logged w k' (Sys_ioctl_ifr skfd SIOCGIFMTU (req_named name) r)).
Proof. unfold_tap. rewrite built_named. run_tap. Qed.

Lemma setipaddr_tap_run skfd name a w :
  setipaddr_tap skfd name a w =
  let q := req_sockaddr byte_order name a in
  let '(k', r, _) := sys_ioctl_ifr (w_kernel w) skfd SIOCSIFADDR q in
  (if r <? 0 then sys_errno k' else 0,
   logged w k' (Sys_ioctl_ifr skfd SIOCSIFADDR q r)).
Proof. unfold_tap. rewrite built_sockaddr. run_tap. Qed.

Lemma getipaddr_tap_run skfd name ipaddr w :
  getipaddr_tap skfd name ipaddr w =
  let '(k', r, reply) := sys_ioctl_ifr (w_kernel w) skfd SIOCGIFADDR (req_named name) in
  (if r <? 0 then (sys_errno k', ipaddr)
   else (0, dec_u byte_order (load off_sin_addr 4 (as_ifreq reply))),
   logged w k' (Sys_ioctl_ifr skfd SIOCGIFADDR (req_named name) r)).
Proof. unfold_tap. rewrite built_named. run_tap. Qed.

Lemma setnetmask_tap_run skfd name a w :
  setnetmask_tap skfd name a w =
  let q := req_sockaddr byte_order name a in
  let '(k', r, _) := sys_ioctl_ifr (w_kernel w) skfd SIOCSIFNETMASK q in
  (if r <? 0 then sys_errno k' else 0,
   logged w k' (Sys_ioctl_ifr skfd SIOCSIFNETMASK q r)).
Proof. unfold_tap. rewrite built_sockaddr. run_tap. Qed.

Lemma setflags_tap_run_raw skfd name flags set w :
  setflags_tap skfd name flags set w =
  let '(k1, r1, reply) :=
    sys_ioctl_ifr (w_kernel w) skfd SIOCGIFFLAGS (req_named name) in
  let w1 := logged w k1 (Sys_ioctl_ifr skfd SIOCGIFFLAGS (req_named name) r1) in
  if r1 <? 0 then (sys_errno k1, w1)
  else
    let q := stored_writeback byte_order (as_ifreq reply) flags set in
    let '(k2, r2, _) := sys_ioctl_ifr k1 skfd SIOCSIFFLAGS q in
    (if r2 <? 0 then sys_errno k2 else 0,
     logged w1 k2 (Sys_ioctl_ifr skfd SIOCSIFFLAGS q r2)).
Proof.
  cbv beta iota zeta delta [setflags_tap bind ret errno local_ifreq ioctl].
  rewrite built_named.
  destruct (sys_ioctl_ifr (w_kernel w) skfd SIOCGIFFLAGS (req_named name))
    as [[k1 r1] reply].
  destruct (r1 <? 0); [reflexivity|].
  fold (stored_writeback byte_order (as_ifreq reply) flags set).
  cbv beta iota zeta delta [logged w_kernel].
  destruct (sys_ioctl_ifr k1 skfd SIOCSIFFLAGS _) as [[k2 r2] reply2].
  destruct (r2 <? 0); reflexivity.
Qed.

Lemma setflags_tap_run skfd name flags set w :
  0 <= flags < 2 ^ 16 ->
  setflags_tap skfd name flags set w =
  let '(k1, r1, reply) :=
    sys_ioctl_ifr (w_kernel w) skfd SIOCGIFFLAGS (req_named name) in
  let w1 := logged w k1 (Sys_ioctl_ifr skfd SIOCGIFFLAGS (req_named name) r1) in
  if r1 <? 0 then (sys_errno k1, w1)
  else
    let q := writeback byte_order (as_ifreq reply) flags set in
    let '(k2, r2, _) := sys_ioctl_ifr k1 skfd SIOCSIFFLAGS q in
    (if r2 <? 0 then sys_errno k2 else 0,
     logged w1 k2 (Sys_ioctl_ifr skfd SIOCSIFFLAGS q r2)).
Proof.
  intros RB. rewrite setflags_tap_run_raw.
  destruct (sys_ioctl_ifr (w_kernel w) skfd SIOCGIFFLAGS (req_named name))
    as [[k1 r1] reply].
  now rewrite (stored_flags byte_order (as_ifreq reply) flags set
                 (length_as_ifreq reply) RB).
Qed.

Lemma gethwaddr_tap_run tapfd ha w :
  gethwaddr_tap tapfd ha w =
  let '(k', r, reply) := sys_ioctl_ifr (w_kernel w) tapfd SIOCGIFHWADDR req_blank in
  (if r <? 0 then (sys_errno k', ha)
   else (0, memcpy ha (skipn off_sa_data (as_ifreq reply)) ETH_ALEN),
   logged w k' (Sys_ioctl_ifr tapfd SIOCGIFHWADDR req_blank r)).
Proof. unfold_tap. rewrite bzero_as_ifreq. run_tap. Qed.

Lemma getname_tap_run tapfd name w :
  getname_tap tapfd name w =
  let '(k', r, reply) := sys_ioctl_ifr (w_kernel w) tapfd TUNGETIFF req_blank in
  (if r <? 0 then (sys_errno k', name)
   else (0, strncpy name (load off_ifr_name IFNAMSIZ (as_ifreq reply)) IFNAMSIZ),
   logged w k' (Sys_ioctl_ifr tapfd TUNGETIFF req_blank r)).
Proof. unfold_tap. rewrite bzero_as_ifreq. run_tap. Qed.

Lemma set_tap_run v w :
  set_tap (Some v) w =
  let (k', fd) := sys_socket (w_kernel w) PF_INET SOCK_DGRAM IPPROTO_IP in
  (if fd <? 0 then (sys_errno k', Some fd) else (0, Some fd),
   logged w k' (Sys_socket PF_INET SOCK_DGRAM IPPROTO_IP fd)).
Proof. unfold_tap. run_tap. Qed.

Lemma set_tap_if_run fd name w :
  set_tap_if fd name w =
  let q := req_attach byte_order name in
  let '(k', r, _) := sys_ioctl_ifr (w_kernel w) fd TUNSETIFF q in
  (if r <? 0 then sys_errno k' else 0,
   logged w k' (Sys_ioctl_ifr fd TUNSETIFF q r)).
Proof. unfold_tap. rewrite built_attach. run_tap. Qed.

End Runs.

(** ** Setting and clearing flags *)

Lemma land_lor_absorb F X Y : Z.land X Y = Y -> Z.land (Z.lor F X) Y = Y.
Proof.
  intros E. apply Z.bits_inj'. intros i _.
  rewrite Z.land_spec, Z.lor_spec, <- E, Z.land_spec.
  destruct (Z.testbit F i), (Z.testbit X i), (Z.testbit Y i); reflexivity.
Qed.

(** C1.  When the kernel answers the read of [setflags_tap] with a record
    whose flags word is [F], the function issues exactly one more request,
    the write [SIOCSIFFLAGS], whose flags word is [F OR flags] when [set] is
    nonzero and [F AND NOT flags] when it is zero; every bit outside [flags]
    is the one of [F], and so is every other byte of the record.  For
    [setup_tap] the word written is [F OR (IFF_UP|IFF_RUNNING)]: both bits
    set, all other bits those of [F]. *)
Theorem setflags_tap_read_modify_write {H : Host} (w : world)
    (skfd : Z) (name : list byte) (flags set : Z) k1 r1 reply :
  0 <= flags < 2 ^ 16 ->
  sys_ioctl_ifr (w_kernel w) skfd SIOCGIFFLAGS (req_named name) = (k1, r1, reply) ->
  0 <= r1 ->
  let F := dec_u byte_order (load off_ifr_flags 2 (as_ifreq reply)) in
  (exists q r2,
      issued w (snd (setflags_tap skfd name flags set w))
      = [Sys_ioctl_ifr skfd SIOCGIFFLAGS (req_named name) r1;
         Sys_ioctl_ifr skfd SIOCSIFFLAGS q r2]
      /\ dec_u byte_order (load off_ifr_flags 2 q)
         = (if set =? 0 then Z.land F (Z.lnot flags) else Z.lor F flags)
      /\ (forall i, 0 <= i -> Z.testbit flags i = false ->
            Z.testbit (dec_u byte_order (load off_ifr_flags 2 q)) i = Z.testbit F i)
      /\ firstn off_ifr_flags q = firstn off_ifr_flags (as_ifreq reply)
      /\ skipn (off_ifr_flags + 2) q = skipn (off_ifr_flags + 2) (as_ifreq reply))
  /\ (exists q r2,
      issued w (snd (setup_tap skfd name w))
      = [Sys_ioctl_ifr skfd SIOCGIFFLAGS (req_named name) r1;
         Sys_ioctl_ifr skfd SIOCSIFFLAGS q r2]
      /\ dec_u byte_order (load off_ifr_flags 2 q) = Z.lor F (Z.lor IFF_UP IFF_RUNNING)
      /\ Z.land (dec_u byte_order (load off_ifr_flags 2 q)) IFF_UP = IFF_UP
      /\ Z.land (dec_u byte_order (load off_ifr_flags 2 q)) IFF_RUNNING = IFF_RUNNING
      /\ (forall i, 0 <= i -> Z.testbit (Z.lor IFF_UP IFF_RUNNING) i = false ->
            Z.testbit (dec_u byte_order (load off_ifr_flags 2 q)) i = Z.testbit F i)).
Proof.
  intros RB E Hr F.
  assert (NEG : (r1 <? 0) = false) by (apply Z.ltb_ge; exact Hr).
  assert (L : length (as_ifreq reply) = sizeof_ifreq) by apply length_as_ifreq.
  assert (RUN : forall fl st, 0 <= fl < 2 ^ 16 ->
            exists r2,
              issued w (snd (setflags_tap skfd name fl st w))
              = [Sys_ioctl_ifr skfd SIOCGIFFLAGS (req_named name) r1;
                 Sys_ioctl_ifr skfd SIOCSIFFLAGS
                   (writeback byte_order (as_ifreq reply) fl st) r2]).
  { intros fl st R. rewrite (setflags_tap_run skfd name fl st w R).
    rewrite E. cbv zeta. rewrite NEG.
    destruct (sys_ioctl_ifr k1 skfd SIOCSIFFLAGS _) as [[k2 r2] reply2].
    exists r2. simpl snd. apply issued_logged2. }
  split.
  - destruct (RUN flags set RB) as [r2 T].
    exists (writeback byte_order (as_ifreq reply) flags set), r2.
    destruct (writeback_rest byte_order (as_ifreq reply) flags set L) as (A & B & _).
    rewrite (writeback_flags _ _ _ _ L RB).
    repeat split; try assumption.
    intros i Hi Hb. now apply new_flags_outside.
  - assert (RU : 0 <= Z.lor IFF_UP IFF_RUNNING < 2 ^ 16) by (vm_compute; split; congruence).
    destruct (RUN (Z.lor IFF_UP IFF_RUNNING) 1 RU) as [r2 T].
    exists (writeback byte_order (as_ifreq reply) (Z.lor IFF_UP IFF_RUNNING) 1), r2.
    rewrite (writeback_flags _ _ _ _ L RU).
    fold F. unfold new_flags. change (1 =? 0) with false. cbv iota.
    repeat split.
    + exact T.
    + apply land_lor_absorb. reflexivity.
    + apply land_lor_absorb. reflexivity.
    + intros i Hi Hb. rewrite Z.lor_spec, Hb. apply orb_false_r.
Qed.

(** ** The reference host keeps what is set *)

Lemma load_app_mid pre x post :
  load (length pre) (length x) (pre ++ x ++ post) = x.
Proof.
  unfold load. rewrite skipn_app, skipn_all, Nat.sub_diag. simpl.
  rewrite firstn_app, Nat.sub_diag, firstn_all. simpl. apply app_nil_r.
Qed.

Lemma length_load off n m :
  (off + n <= length m)%nat -> length (load off n m) = n.
Proof.
  intros L. unfold load. rewrite length_firstn, length_skipn. lia.
Qed.

Lemma as_ifreq_exact m : length m = sizeof_ifreq -> as_ifreq m = m.
Proof. apply sized_exact. Qed.

Lemma enc_dec_s e bs : enc e (length bs) (dec_s e bs) = bs.
Proof.
  rewrite <- enc_mod, (Z.mul_comm 8), <- (Z.mul_comm 8), dec_s_mod.
  apply enc_dec_u.
Qed.

Lemma dec_s_enc e n z :
  (0 < n)%nat -> - 2 ^ (8 * Z.of_nat n - 1) <= z < 2 ^ (8 * Z.of_nat n - 1) ->
  dec_s e (enc e n z) = z.
Proof.
  intros Hn R. unfold dec_s. rewrite dec_u_enc, length_enc.
  set (w := 8 * Z.of_nat n) in *.
  assert (P : 2 ^ w = 2 * 2 ^ (w - 1)).
  { rewrite <- Z.pow_succ_r by lia. f_equal. lia. }
  assert (Q : 0 < 2 ^ (w - 1)) by (apply Z.pow_pos_nonneg; lia).
  destruct (Z.le_gt_cases 0 z) as [Pz|Nz].
  - rewrite Z.mod_small by lia.
    destruct (Z.ltb_spec z (2 ^ (w - 1))); lia.
  - replace (z mod 2 ^ w) with (z + 2 ^ w).
    + destruct (Z.ltb_spec (z + 2 ^ w) (2 ^ (w - 1))); lia.
    + symmetry. rewrite <- (Z.mod_add z 1 (2 ^ w)) by lia.
      rewrite Z.mul_1_l. apply Z.mod_small. lia.
Qed.

Module RefFacts.
Import Ref.

Lemma bytes_eqb_refl a : bytes_eqb a a = true.
Proof.
  induction a as [|x a IH]; [reflexivity|].
  simpl. now rewrite (@Byte.byte_dec_lb x x eq_refl), IH.
Qed.

Lemma if_find_update n f t :
  if_find n (if_update n f t) = option_map f (if_find n t).
Proof.
  induction t as [|[m i] t IH]; [reflexivity|].
  simpl. destruct (bytes_eqb n m) eqn:E; simpl; rewrite E; [reflexivity|exact IH].
Qed.

(** A request the reference kernel accepts went through an open socket and
    named an interface it has. *)
Lemma on_iface_ok k fd ifr get upd k1 r1 reply :
  on_iface k fd ifr get upd = (k1, r1, reply) -> 0 <= r1 ->
  exists i,
    mem_fd fd (k_socks k) = true /\
    if_find (req_name ifr) (k_ifaces k) = Some i /\
    k1 = with_ifaces k (if_update (req_name ifr) upd (k_ifaces k)) /\
    reply = get i.
Proof.
  unfold on_iface. intros E Hr.
  destruct (mem_fd fd (k_socks k)).
  - destruct (if_find (req_name ifr) (k_ifaces k)) as [i|].
    + inversion E; subst. now exists i.
    + inversion E; subst. lia.
  - inversion E; subst. lia.
Qed.

Lemma req_name_same q q' : same_name q q' -> req_name q' = req_name q.
Proof. unfold same_name, req_name. now intros ->. Qed.

Lemma load_stored off bs m :
  length m = sizeof_ifreq -> (off + length bs <= sizeof_ifreq)%nat ->
  load off (length bs) (as_ifreq (store off bs m)) = bs.
Proof.
  intros E L.
  rewrite as_ifreq_exact by (rewrite length_store; rewrite E; auto).
  apply load_store. lia.
Qed.

Lemma ioctl_SIOCSIFMTU e k fd q :
  ioctl_ifr e k fd SIOCSIFMTU q =
  on_iface k fd (as_ifreq q) (fun _ => as_ifreq q)
    (set_mtu (dec_s e (load off_ifr_mtu 4 (as_ifreq q)))).
Proof. reflexivity. Qed.

Lemma ioctl_SIOCGIFMTU e k fd q :
  ioctl_ifr e k fd SIOCGIFMTU q =
  on_iface k fd (as_ifreq q)
    (fun i => store off_ifr_mtu (enc e 4 (if_mtu i)) (as_ifreq q)) (fun i => i).
Proof. reflexivity. Qed.

Lemma ioctl_SIOCSIFADDR e k fd q :
  ioctl_ifr e k fd SIOCSIFADDR q =
  if dec_u e (load off_sin_family 2 (as_ifreq q)) =? AF_INET then
    on_iface k fd (as_ifreq q) (fun _ => as_ifreq q)
      (set_addr (load off_sin_addr 4 (as_ifreq q)))
  else (fail k EINVAL, -1, as_ifreq q).
Proof. reflexivity. Qed.

Lemma ioctl_SIOCGIFADDR e k fd q :
  ioctl_ifr e k fd SIOCGIFADDR q =
  on_iface k fd (as_ifreq q)
    (fun i => store off_ifr_ifru (sockaddr_in e (if_addr i)) (as_ifreq q))
    (fun i => i).
Proof. reflexivity. Qed.

Lemma ref_mtu_law e : mtu_law (host e).
Proof.
  unfold mtu_law. cbn [sys_ioctl_ifr kernel byte_order host].
  intros k fd q k1 r1 reply1 Lq E Hr q' Lq' SN.
  rewrite ioctl_SIOCSIFMTU, (as_ifreq_exact q Lq) in E.
  destruct (on_iface_ok _ _ _ _ _ _ _ _ E Hr) as (i & S & F & -> & _).
  rewrite ioctl_SIOCGIFMTU, (as_ifreq_exact q' Lq').
  unfold on_iface. cbn [k_socks k_ifaces with_ifaces].
  rewrite S, (req_name_same q q' SN), if_find_update, F. cbn [option_map].
  do 3 eexists. split; [reflexivity|]. split; [lia|].
  cbn [if_mtu set_mtu].
  assert (L4 : length (load off_ifr_mtu 4 q) = 4%nat).
  { apply length_load. rewrite Lq. unfold off_ifr_mtu, off_ifr_ifru, sizeof_ifreq. lia. }
  rewrite <- L4 at 2. rewrite enc_dec_s.
  rewrite <- L4 at 1.
  apply load_stored; [exact Lq'|].
  rewrite L4. unfold off_ifr_mtu, off_ifr_ifru, sizeof_ifreq. lia.
Qed.

Lemma load_sockaddr_in e a m :
  length m = sizeof_ifreq -> length a = 4%nat ->
  load off_sin_addr 4 (as_ifreq (store off_ifr_ifru (sockaddr_in e a) m)) = a.
Proof.
  intros Lm La.
  assert (LS : length (sockaddr_in e a) = 16%nat).
  { unfold sockaddr_in. rewrite !length_app, length_enc, !length_zeros, length_sized.
    reflexivity. }
  rewrite as_ifreq_exact
    by (rewrite length_store; rewrite ?LS, ?Lm; unfold off_ifr_ifru, sizeof_ifreq; lia).
  unfold store, sockaddr_in. rewrite (sized_exact 4 a La).
  set (P := firstn off_ifr_ifru m).
  set (X := enc e 2 AF_INET).
  set (R := skipn _ m).
  replace (P ++ (X ++ zeros 2 ++ a ++ zeros 8) ++ R)
    with ((P ++ X ++ zeros 2) ++ a ++ (zeros 8 ++ R))
    by (now rewrite <- !app_assoc).
  replace off_sin_addr with (length (P ++ X ++ zeros 2)).
  - pose proof (load_app_mid (P ++ X ++ zeros 2) a (zeros 8 ++ R)) as Q.
    rewrite La in Q. exact Q.
  - unfold P, X. rewrite !length_app, length_firstn, length_enc, length_zeros, Lm.
    reflexivity.
Qed.

Lemma ref_addr_law e : addr_law (host e).
Proof.
  unfold addr_law. cbn [sys_ioctl_ifr kernel byte_order host].
  intros k fd q k1 r1 reply1 Lq Fam E Hr q' Lq' SN.
  rewrite ioctl_SIOCSIFADDR, (as_ifreq_exact q Lq), Fam, Z.eqb_refl in E.
  destruct (on_iface_ok _ _ _ _ _ _ _ _ E Hr) as (i & S & F & -> & _).
  rewrite ioctl_SIOCGIFADDR, (as_ifreq_exact q' Lq').
  unfold on_iface. cbn [k_socks k_ifaces with_ifaces].
  rewrite S, (req_name_same q q' SN), if_find_update, F. cbn [option_map].
  do 3 eexists. split; [reflexivity|]. split; [lia|].
  cbn [if_addr set_addr].
  apply load_sockaddr_in; [exact Lq'|].
  apply length_load. rewrite Lq. unfold off_sin_addr, off_ifr_ifru, sizeof_ifreq. lia.
Qed.

Lemma ref_errno_law e : errno_law (host e).
Proof.
  unfold errno_law. cbn [sys_ioctl_ifr sys_errno kernel host].
  intros k fd request q k' r reply E N.
  unfold ioctl_ifr, on_iface, on_tap, attach in E.
  repeat match type of E with
         | context [if ?b then _ else _] => destruct b
         | context [match ?x with _ => _ end] => destruct x
         end;
    inversion E; subst; try lia; cbn; discriminate.
Qed.

End RefFacts.

(** ** The fields of the records *)

Lemma load_name_prefix N rest :
  length N = IFNAMSIZ -> load off_ifr_name IFNAMSIZ (N ++ rest) = N.
Proof.
  intros L. pose proof (load_app_mid [] N rest) as Q.
  rewrite L in Q. exact Q.
Qed.

Lemma req_named_name name :
  load off_ifr_name IFNAMSIZ (req_named name) = strncpy_bytes IFNAMSIZ name.
Proof. apply load_name_prefix, length_strncpy_bytes. Qed.

Lemma req_sockaddr_name e name a :
  load off_ifr_name IFNAMSIZ (req_sockaddr e name a) = strncpy_bytes IFNAMSIZ name.
Proof. apply load_name_prefix, length_strncpy_bytes. Qed.

Lemma req_attach_name e name :
  load off_ifr_name IFNAMSIZ (req_attach e name) = strncpy_bytes IFNAMSIZ name.
Proof. apply load_name_prefix, length_strncpy_bytes. Qed.

Lemma length_req_named name : length (req_named name) = sizeof_ifreq.
Proof.
  unfold req_named. now rewrite length_app, length_strncpy_bytes, length_zeros.
Qed.

Lemma length_req_sockaddr e name a : length (req_sockaddr e name a) = sizeof_ifreq.
Proof.
  unfold req_sockaddr.
  now rewrite !length_app, length_strncpy_bytes, !length_enc, !length_zeros.
Qed.

Lemma length_req_attach e name : length (req_attach e name) = sizeof_ifreq.
Proof.
  unfold req_attach.
  now rewrite !length_app, length_strncpy_bytes, !length_enc, !length_zeros.
Qed.

Lemma req_sockaddr_family e name a :
  load off_sin_family 2 (req_sockaddr e name a) = enc e 2 AF_INET.
Proof.
  unfold req_sockaddr.
  pose proof (load_app_mid (strncpy_bytes IFNAMSIZ name) (enc e 2 AF_INET)
                (zeros 2 ++ enc e 4 a ++ zeros 16)) as Q.
  now rewrite length_strncpy_bytes, length_enc in Q.
Qed.

Lemma req_sockaddr_addr e name a :
  load off_sin_addr 4 (req_sockaddr e name a) = enc e 4 a.
Proof.
  unfold req_sockaddr.
  pose proof (load_app_mid
                (strncpy_bytes IFNAMSIZ name ++ enc e 2 AF_INET ++ zeros 2)
                (enc e 4 a) (zeros 16)) as Q.
  rewrite !length_app, length_strncpy_bytes, !length_enc, length_zeros in Q.
  now rewrite <- !app_assoc in Q.
Qed.

(** Everything after the address is NUL, and so is the port. *)
Lemma req_sockaddr_rest e name a :
  load (off_sin_family + 2) 2 (req_sockaddr e name a) = zeros 2
  /\ skipn (off_sin_addr + 4) (req_sockaddr e name a) = zeros 16.
Proof.
  unfold req_sockaddr. split.
  - pose proof (load_app_mid
                  (strncpy_bytes IFNAMSIZ name ++ enc e 2 AF_INET)
                  (zeros 2) (enc e 4 a ++ zeros 16)) as Q.
    rewrite !length_app, length_strncpy_bytes, !length_enc, length_zeros in Q.
    now rewrite <- !app_assoc in Q.
  - rewrite !app_assoc.
    rewrite skipn_app, skipn_all2;
      rewrite !length_app, length_strncpy_bytes, !length_enc, length_zeros;
      [reflexivity | unfold off_sin_addr, off_ifr_ifru, IFNAMSIZ; lia].
Qed.

Lemma req_attach_flags e name :
  load off_ifr_flags 2 (req_attach e name) = enc e 2 (Z.lor IFF_TAP IFF_NO_PI)
  /\ skipn (off_ifr_flags + 2) (req_attach e name) = zeros 22.
Proof.
  unfold req_attach. split.
  - pose proof (load_app_mid (strncpy_bytes IFNAMSIZ name)
                  (enc e 2 (Z.lor IFF_TAP IFF_NO_PI)) (zeros 22)) as Q.
    now rewrite length_strncpy_bytes, length_enc in Q.
  - rewrite !app_assoc.
    rewrite skipn_app, skipn_all2;
      rewrite !length_app, length_strncpy_bytes, !length_enc;
      [reflexivity | unfold off_ifr_flags, off_ifr_ifru, IFNAMSIZ; lia].
Qed.

(** ** Round trips *)

(** C2.  On a host whose kernel keeps what is set ([addr_law], [mtu_law]):
    when the kernel accepts the request of [setipaddr_tap skfd name A], that
    call returns 0 and a [getipaddr_tap skfd name] made next returns 0 and
    stores [A]; and when the kernel has accepted a [SIOCSIFMTU] request for
    the interface with MTU [m], a [getmtu_tap skfd name] made next returns 0
    and stores [m]. *)
Theorem set_then_get_round_trip {H : Host} :
  addr_law H -> mtu_law H ->
  (forall (w : world) skfd name A v,
      0 <= A < 2 ^ 32 ->
      Forall (fun c => 0 <= sys_ret c)
        (issued w (snd (setipaddr_tap skfd name A w))) ->
      fst (setipaddr_tap skfd name A w) = 0
      /\ fst (getipaddr_tap skfd name v (snd (setipaddr_tap skfd name A w)))
         = (0, A))
  /\ (forall (w : world) skfd name m q k1 r1 reply1 v,
      - 2 ^ 31 <= m < 2 ^ 31 ->
      length q = sizeof_ifreq ->
      load off_ifr_name IFNAMSIZ q = strncpy_bytes IFNAMSIZ name ->
      load off_ifr_mtu 4 q = enc byte_order 4 m ->
      sys_ioctl_ifr (w_kernel w) skfd SIOCSIFMTU q = (k1, r1, reply1) ->
      0 <= r1 ->
      fst (getmtu_tap skfd name v
             (logged w k1 (Sys_ioctl_ifr skfd SIOCSIFMTU q r1))) = (0, m)).
Proof.
  intros LA LM. split.
  - intros w skfd name A v RA OK.
    rewrite setipaddr_tap_run in *. cbv zeta in *.
    destruct (sys_ioctl_ifr (w_kernel w) skfd SIOCSIFADDR
                (req_sockaddr byte_order name A)) as [[k1 r1] reply1] eqn:E.
    cbn [fst snd] in *. rewrite issued_logged in OK.
    inversion OK as [|c l Hr _]; subst. cbn [sys_ret] in Hr.
    assert (NEG : (r1 <? 0) = false) by (apply Z.ltb_ge; exact Hr).
    rewrite NEG. split; [reflexivity|].
    rewrite getipaddr_tap_run. cbn [w_kernel logged].
    destruct (LA _ _ _ _ _ _ (length_req_sockaddr _ name A)
                (eq_trans (f_equal (dec_u byte_order) (req_sockaddr_family _ name A))
                          (dec_u_enc _ 2 AF_INET))
                E Hr (req_named name) (length_req_named name))
      as (k2 & r2 & reply2 & E2 & Hr2 & V).
    { unfold same_name. now rewrite req_named_name, req_sockaddr_name. }
    rewrite E2.
    assert (NEG2 : (r2 <? 0) = false) by (apply Z.ltb_ge; exact Hr2).
    rewrite NEG2. cbn [fst]. f_equal.
    rewrite V, req_sockaddr_addr, dec_u_enc. apply Z.mod_small. exact RA.
  - intros w skfd name m q k1 r1 reply1 v Rm Lq Nq Mq E Hr.
    rewrite getmtu_tap_run. cbn [w_kernel logged].
    destruct (LM _ _ _ _ _ _ Lq E Hr (req_named name) (length_req_named name))
      as (k2 & r2 & reply2 & E2 & Hr2 & V).
    { unfold same_name. now rewrite req_named_name, Nq. }
    rewrite E2.
    assert (NEG2 : (r2 <? 0) = false) by (apply Z.ltb_ge; exact Hr2).
    rewrite NEG2. cbn [fst]. f_equal.
    rewrite V, Mq. apply dec_s_enc; [lia|exact Rm].
Qed.

(** ** Every call at once *)

Section Calls.
Context {H : Host}.

(** A call either is [set_tap(NULL)], or makes one system call, or (the flag
    functions, when the read succeeds) two; its return value is 0 when the
    last system call did not fail and [errno] as the kernel left it
    otherwise. *)
Lemma invoke_shape (c : call) (w : world) :
  (c = Call_set_tap None /\ invoke c w = ((-1, Out_fd None), w))
  \/ (exists k' e out,
        invoke c w
        = ((if sys_ret e <? 0 then sys_errno k' else 0, out), logged w k' e))
  \/ (exists k1 e1 k2 e2 out,
        0 <= sys_ret e1 /\
        invoke c w
        = ((if sys_ret e2 <? 0 then sys_errno k2 else 0, out),
           logged (logged w k1 e1) k2 e2)).
Proof.
  assert (FL : forall skfd name flags set,
    (exists k' e out,
        (let (r, w') := setflags_tap skfd name flags set w in ((r, Out_none), w'))
        = ((if sys_ret e <? 0 then sys_errno k' else 0, out), logged w k' e))
    \/ (exists k1 e1 k2 e2 out,
        0 <= sys_ret e1 /\
        (let (r, w') := setflags_tap skfd name flags set w in ((r, Out_none), w'))
        = ((if sys_ret e2 <? 0 then sys_errno k2 else 0, out),
           logged (logged w k1 e1) k2 e2))).
  { intros skfd name flags set. rewrite setflags_tap_run_raw.
    destruct (sys_ioctl_ifr (w_kernel w) skfd SIOCGIFFLAGS (req_named name))
      as [[k1 r1] reply].
    cbv zeta. destruct (Z.ltb_spec r1 0) as [N|P].
    - left. exists k1, (Sys_ioctl_ifr skfd SIOCGIFFLAGS (req_named name) r1), Out_none.
      cbn [sys_ret]. destruct (Z.ltb_spec r1 0); [reflexivity|lia].
    - right.
      destruct (sys_ioctl_ifr k1 skfd SIOCSIFFLAGS _) as [[k2 r2] reply2] eqn:E2.
      exists k1, (Sys_ioctl_ifr skfd SIOCGIFFLAGS (req_named name) r1), k2,
        (Sys_ioctl_ifr skfd SIOCSIFFLAGS
           (stored_writeback byte_order (as_ifreq reply) flags set) r2), Out_none.
      split; [exact P|reflexivity]. }
  destruct c as [fd|skfd name mtu|skfd name a|skfd name a|skfd name a
                |skfd name flags set|skfd name|tapfd ha|tapfd name|p|fd name];
    cbv beta iota delta [invoke bind ret].
  - rewrite setpersist_tap_run.
    destruct (sys_ioctl_int (w_kernel w) fd TUNSETPERSIST 1) as [k' r].
    right; left. now exists k', (Sys_ioctl_int fd TUNSETPERSIST 1 r), Out_none.
  - rewrite getmtu_tap_run.
    destruct (sys_ioctl_ifr (w_kernel w) skfd SIOCGIFMTU (req_named name))
      as [[k' r] reply].
    right; left.
    exists k', (Sys_ioctl_ifr skfd SIOCGIFMTU (req_named name) r),
      (Out_int (if r <? 0 then mtu
                else dec_s byte_order (load off_ifr_mtu 4 (as_ifreq reply)))).
    cbn [sys_ret]. now destruct (r <? 0).
  - rewrite setipaddr_tap_run. cbv zeta.
    destruct (sys_ioctl_ifr (w_kernel w) skfd SIOCSIFADDR _) as [[k' r] reply].
    right; left.
    now exists k', (Sys_ioctl_ifr skfd SIOCSIFADDR (req_sockaddr byte_order name a) r),
      Out_none.
  - rewrite getipaddr_tap_run.
    destruct (sys_ioctl_ifr (w_kernel w) skfd SIOCGIFADDR (req_named name))
      as [[k' r] reply].
    right; left.
    exists k', (Sys_ioctl_ifr skfd SIOCGIFADDR (req_named name) r),
      (Out_int (if r <? 0 then a
                else dec_u byte_order (load off_sin_addr 4 (as_ifreq reply)))).
    cbn [sys_ret]. now destruct (r <? 0).
  - rewrite setnetmask_tap_run. cbv zeta.
    destruct (sys_ioctl_ifr (w_kernel w) skfd SIOCSIFNETMASK _) as [[k' r] reply].
    right; left.
    now exists k', (Sys_ioctl_ifr skfd SIOCSIFNETMASK (req_sockaddr byte_order name a) r),
      Out_none.
  - right. apply FL.
  - right. apply FL.
  - rewrite gethwaddr_tap_run.
    destruct (sys_ioctl_ifr (w_kernel w) tapfd SIOCGIFHWADDR req_blank)
      as [[k' r] reply].
    right; left.
    exists k', (Sys_ioctl_ifr tapfd SIOCGIFHWADDR req_blank r),
      (Out_bytes (if r <? 0 then ha
                  else memcpy ha (skipn off_sa_data (as_ifreq reply)) ETH_ALEN)).
    cbn [sys_ret]. now destruct (r <? 0).
  - rewrite getname_tap_run.
    destruct (sys_ioctl_ifr (w_kernel w) tapfd TUNGETIFF req_blank)
      as [[k' r] reply].
    right; left.
    exists k', (Sys_ioctl_ifr tapfd TUNGETIFF req_blank r),
      (Out_bytes (if r <? 0 then name
                  else strncpy name (load off_ifr_name IFNAMSIZ (as_ifreq reply))
                         IFNAMSIZ)).
    cbn [sys_ret]. now destruct (r <? 0).
  - destruct p as [v|].
    + rewrite set_tap_run.
      destruct (sys_socket (w_kernel w) PF_INET SOCK_DGRAM IPPROTO_IP) as [k' fd].
      right; left.
      exists k', (Sys_socket PF_INET SOCK_DGRAM IPPROTO_IP fd), (Out_fd (Some fd)).
      cbn [sys_ret]. now destruct (fd <? 0).
    + left. split; reflexivity.
  - rewrite set_tap_if_run. cbv zeta.
    destruct (sys_ioctl_ifr (w_kernel w) fd TUNSETIFF _) as [[k' r] reply].
    right; left.
    now exists k', (Sys_ioctl_ifr fd TUNSETIFF (req_attach byte_order name) r), Out_none.
Qed.

(** A call whose system calls all succeed returns 0. *)
Lemma invoke_ok_zero (c : call) (w : world) :
  c <> Call_set_tap None ->
  Forall (fun x => 0 <= sys_ret x) (issued w (snd (invoke c w))) ->
  fst (fst (invoke c w)) = 0.
Proof.
  intros NN.
  destruct (invoke_shape c w)
    as [[E _] | [(k' & e & out & E) | (k1 & e1 & k2 & e2 & out & P & E)]].
  - contradiction.
  - rewrite E. cbn [fst snd]. rewrite issued_logged. intros A.
    inversion A as [|x l S _]; subst.
    destruct (Z.ltb_spec (sys_ret e) 0); [lia|reflexivity].
  - rewrite E. cbn [fst snd]. rewrite issued_logged2. intros A.
    inversion A as [|x l _ A']; subst. inversion A' as [|x l S _]; subst.
    destruct (Z.ltb_spec (sys_ret e2) 0); [lia|reflexivity].
Qed.

(** The first request of a call is the record written out in
    [built_request]. *)
Lemma invoke_first_request (c : call) (w : world) :
  first_request (issued w (snd (invoke c w))) = built_request byte_order c.
Proof.
  assert (FL : forall skfd name flags set,
    first_request
      (issued w (snd (let (r, w') := setflags_tap skfd name flags set w in
                      ((r, Out_none), w')))) = Some (req_named name)).
  { intros skfd name flags set. rewrite setflags_tap_run_raw.
    destruct (sys_ioctl_ifr (w_kernel w) skfd SIOCGIFFLAGS (req_named name))
      as [[k1 r1] reply].
    cbv zeta. destruct (r1 <? 0).
    - cbn [snd]. now rewrite issued_logged.
    - destruct (sys_ioctl_ifr k1 skfd SIOCSIFFLAGS _) as [[k2 r2] reply2].
      cbn [snd]. now rewrite issued_logged2. }
  destruct c as [fd|skfd name mtu|skfd name a|skfd name a|skfd name a
                |skfd name flags set|skfd name|tapfd ha|tapfd name|p|fd name];
    cbv beta iota delta [invoke bind ret built_request];
    try apply FL.
  - rewrite setpersist_tap_run.
    destruct (sys_ioctl_int _ _ _ _) as [k' r].
    cbn [snd]. now rewrite issued_logged.
  - rewrite getmtu_tap_run.
    destruct (sys_ioctl_ifr _ _ _ _) as [[k' r] reply].
    destruct (r <? 0); cbn [snd]; now rewrite issued_logged.
  - rewrite setipaddr_tap_run. cbv zeta.
    destruct (sys_ioctl_ifr _ _ _ _) as [[k' r] reply].
    cbn [snd]. now rewrite issued_logged.
  - rewrite getipaddr_tap_run.
    destruct (sys_ioctl_ifr _ _ _ _) as [[k' r] reply].
    destruct (r <? 0); cbn [snd]; now rewrite issued_logged.
  - rewrite setnetmask_tap_run. cbv zeta.
    destruct (sys_ioctl_ifr _ _ _ _) as [[k' r] reply].
    cbn [snd]. now rewrite issued_logged.
  - rewrite gethwaddr_tap_run.
    destruct (sys_ioctl_ifr _ _ _ _) as [[k' r] reply].
    destruct (r <? 0); cbn [snd]; now rewrite issued_logged.
  - rewrite getname_tap_run.
    destruct (sys_ioctl_ifr _ _ _ _) as [[k' r] reply].
    destruct (r <? 0); cbn [snd]; now rewrite issued_logged.
  - destruct p as [v|].
    + rewrite set_tap_run.
      destruct (sys_socket _ _ _ _) as [k' fd].
      destruct (fd <? 0); cbn [snd]; now rewrite issued_logged.
    + cbn [set_tap ret snd]. now rewrite issued_same.
  - rewrite set_tap_if_run. cbv zeta.
    destruct (sys_ioctl_ifr _ _ _ _) as [[k' r] reply].
    cbn [snd]. now rewrite issued_logged.
Qed.

End Calls.

(** ** Return values *)

(** C3, as amended.  Every call other than [set_tap] on a NULL pointer makes
    at least one system call, makes no further one after a failure, and
    returns 0 when its last system call did not fail and otherwise the value
    [errno] has when the function returns, unchanged. *)
Theorem errno_convention {H : Host} (c : call) (w : world) :
  c <> Call_set_tap None ->
  exists evs e,
    issued w (snd (invoke c w)) = evs ++ [e]
    /\ Forall (fun x => 0 <= sys_ret x) evs
    /\ (0 <= sys_ret e -> fst (fst (invoke c w)) = 0)
    /\ (sys_ret e < 0 ->
        fst (fst (invoke c w)) = sys_errno (w_kernel (snd (invoke c w)))).
Proof.
  intros NN.
  destruct (invoke_shape c w)
    as [[E _] | [(k' & e & out & E) | (k1 & e1 & k2 & e2 & out & P & E)]].
  - contradiction.
  - exists [], e. rewrite E. cbn [fst snd app]. rewrite issued_logged.
    repeat split; [constructor| |]; intros S;
      destruct (Z.ltb_spec (sys_ret e) 0); try lia; reflexivity.
  - exists [e1], e2. rewrite E. cbn [fst snd app]. rewrite issued_logged2.
    repeat split; [now constructor| |]; intros S;
      destruct (Z.ltb_spec (sys_ret e2) 0); try lia; reflexivity.
Qed.

(** C8.  [set_tap] on a NULL pointer returns -1 on every host and in every
    world, and leaves the world as it was: no system call is made.  It is
    the only call whose return value can be neither 0 nor the [errno] of the
    kernel. *)
Theorem set_tap_null {H : Host} :
  (forall w : world, set_tap None w = ((-1, None), w))
  /\ (forall w : world, issued w (snd (set_tap None w)) = [])
  /\ (forall (c : call) (w : world),
         fst (fst (invoke c w)) <> 0 ->
         fst (fst (invoke c w)) <> sys_errno (w_kernel (snd (invoke c w))) ->
         c = Call_set_tap None).
Proof.
  split; [reflexivity|]. split; [intros w; apply issued_same|].
  intros c w N0 NE.
  destruct (invoke_shape c w)
    as [[E _] | [(k' & e & out & E) | (k1 & e1 & k2 & e2 & out & P & E)]].
  - exact E.
  - rewrite E in N0, NE. cbn [fst snd logged w_kernel] in N0, NE.
    destruct (sys_ret e <? 0); contradiction.
  - rewrite E in N0, NE. cbn [fst snd logged w_kernel] in N0, NE.
    destruct (sys_ret e2 <? 0); contradiction.
Qed.

(** ** Names *)

(** C4.  Every call that takes a name makes a first request whose [ifr_name]
    is what [strncpy] leaves of the name in [IFNAMSIZ] bytes: the first
    [IFNAMSIZ] bytes of a longer name, and a name of at most [IFNAMSIZ] bytes
    whole, followed by NULs.  The request is made whatever the length, and
    the call returns 0 when the kernel accepts what it is asked. *)
Theorem name_copied_or_truncated {H : Host} (c : call) (name : list byte) (w : world) :
  name_of_call c = Some name ->
  exists fd request q r rest,
    issued w (snd (invoke c w)) = Sys_ioctl_ifr fd request q r :: rest
    /\ load off_ifr_name IFNAMSIZ q = strncpy_bytes IFNAMSIZ name
    /\ ((IFNAMSIZ < length (c_str name))%nat ->
        load off_ifr_name IFNAMSIZ q = firstn IFNAMSIZ (c_str name))
    /\ ((length (c_str name) <= IFNAMSIZ)%nat ->
        load off_ifr_name IFNAMSIZ q
        = c_str name ++ zeros (IFNAMSIZ - length (c_str name)))
    /\ (Forall (fun x => 0 <= sys_ret x) (issued w (snd (invoke c w))) ->
        fst (fst (invoke c w)) = 0).
Proof.
  intros N.
  assert (NN : c <> Call_set_tap None) by (intros ->; discriminate).
  pose proof (invoke_ok_zero c w NN) as R0.
  pose proof (invoke_first_request c w) as FR.
  assert (B : exists q, built_request byte_order c = Some q
                        /\ load off_ifr_name IFNAMSIZ q = strncpy_bytes IFNAMSIZ name).
  { destruct c; try discriminate; injection N as <-; cbn [built_request];
      eexists; (split; [reflexivity|]);
      auto using req_named_name, req_sockaddr_name, req_attach_name. }
  destruct B as (q & B & Nq). rewrite B in FR.
  destruct (issued w (snd (invoke c w))) as [|ev rest] eqn:I; [discriminate|].
  destruct ev as [? ? ? ?|fd request q0 r|? ? ? ?]; try discriminate.
  injection FR as ->.
  exists fd, request, q, r, rest.
  split; [reflexivity|]. split; [exact Nq|].
  split; [|split].
  - intros L. rewrite Nq. apply strncpy_bytes_long. lia.
  - intros L. rewrite Nq. now apply strncpy_bytes_fits.
  - exact R0.
Qed.

(** C5, as amended.  [set_tap_if] makes one request, [TUNSETIFF], on a
    record whose flags word is exactly [IFF_TAP | IFF_NO_PI], whose name
    field holds the requested name when it has at most [IFNAMSIZ] bytes
    (NUL-padded; all NUL for the empty name) and its first [IFNAMSIZ] bytes
    otherwise, and whose other bytes are NUL; it returns [errno] when the
    request fails and 0 otherwise. *)
Theorem set_tap_if_request {H : Host} (fd : Z) (name : list byte) (w : world) :
  exists q r,
    issued w (snd (set_tap_if fd name w)) = [Sys_ioctl_ifr fd TUNSETIFF q r]
    /\ dec_u byte_order (load off_ifr_flags 2 q) = Z.lor IFF_TAP IFF_NO_PI
    /\ ((length (c_str name) <= IFNAMSIZ)%nat ->
        load off_ifr_name IFNAMSIZ q
        = c_str name ++ zeros (IFNAMSIZ - length (c_str name)))
    /\ ((IFNAMSIZ <= length (c_str name))%nat ->
        load off_ifr_name IFNAMSIZ q = firstn IFNAMSIZ (c_str name))
    /\ skipn (off_ifr_flags + 2) q = zeros 22
    /\ length q = sizeof_ifreq
    /\ fst (set_tap_if fd name w)
       = (if r <? 0 then sys_errno (w_kernel (snd (set_tap_if fd name w))) else 0).
Proof.
  rewrite set_tap_if_run. cbv zeta.
  destruct (sys_ioctl_ifr (w_kernel w) fd TUNSETIFF (req_attach byte_order name))
    as [[k' r] reply].
  exists (req_attach byte_order name), r. cbn [fst snd].
  rewrite issued_logged, req_attach_name.
  destruct (req_attach_flags byte_order name) as [F Z0]. rewrite F, dec_u_enc.
  repeat split.
  - now apply strncpy_bytes_fits.
  - now apply strncpy_bytes_long.
  - exact Z0.
  - apply length_req_attach.
Qed.

(** ** Addresses *)

(** C6.  Let the caller's word lie in memory as the four bytes [b0 b1 b2 b3]
    (network order).  [setipaddr_tap] and [setnetmask_tap] each make one
    request, on a record whose address field holds these four bytes in this
    order, whose family field is [AF_INET], whose name field is the copied
    name, and whose every other byte (port, padding, rest of the union) is
    NUL. *)
Theorem address_request_bytes {H : Host} (skfd : Z) (name : list byte)
    (b0 b1 b2 b3 : byte) (w : world) :
  let W := dec_u byte_order [b0; b1; b2; b3] in
  let carries (q : list byte) :=
    load off_sin_addr 4 q = [b0; b1; b2; b3]
    /\ dec_u byte_order (load off_sin_family 2 q) = AF_INET
    /\ load off_ifr_name IFNAMSIZ q = strncpy_bytes IFNAMSIZ name
    /\ load (off_sin_family + 2) 2 q = zeros 2
    /\ skipn (off_sin_addr + 4) q = zeros 16
    /\ length q = sizeof_ifreq in
  (exists q r,
      issued w (snd (setipaddr_tap skfd name W w))
      = [Sys_ioctl_ifr skfd SIOCSIFADDR q r] /\ carries q)
  /\ (exists q r,
      issued w (snd (setnetmask_tap skfd name W w))
      = [Sys_ioctl_ifr skfd SIOCSIFNETMASK q r] /\ carries q).
Proof.
  intros W carries.
  assert (C : carries (req_sockaddr byte_order name W)).
  { unfold carries.
    destruct (req_sockaddr_rest byte_order name W) as [P Z0].
    rewrite req_sockaddr_addr, req_sockaddr_family, req_sockaddr_name, dec_u_enc.
    repeat split; try assumption.
    - unfold W. apply (enc_dec_u byte_order [b0; b1; b2; b3]).
    - apply length_req_sockaddr. }
  split.
  - rewrite setipaddr_tap_run. cbv zeta.
    destruct (sys_ioctl_ifr (w_kernel w) skfd SIOCSIFADDR _) as [[k' r] reply].
    exists (req_sockaddr byte_order name W), r. cbn [snd].
    now rewrite issued_logged.
  - rewrite setnetmask_tap_run. cbv zeta.
    destruct (sys_ioctl_ifr (w_kernel w) skfd SIOCSIFNETMASK _) as [[k' r] reply].
    exists (req_sockaddr byte_order name W), r. cbn [snd].
    now rewrite issued_logged.
Qed.

(** C7.  [gethwaddr_tap] makes one request, [SIOCGIFHWADDR]; when it does
    not fail the function returns 0 and the caller's buffer then starts with
    the [ETH_ALEN] = 6 bytes the kernel left in [ifr_hwaddr.sa_data], and is
    unchanged from its seventh byte on. *)
Theorem gethwaddr_tap_six_bytes {H : Host} (tapfd : Z) (ha : list byte) (w : world) :
  exists k' r reply,
    sys_ioctl_ifr (w_kernel w) tapfd SIOCGIFHWADDR req_blank = (k', r, reply)
    /\ issued w (snd (gethwaddr_tap tapfd ha w))
       = [Sys_ioctl_ifr tapfd SIOCGIFHWADDR req_blank r]
    /\ (0 <= r ->
        fst (fst (gethwaddr_tap tapfd ha w)) = 0
        /\ firstn ETH_ALEN (snd (fst (gethwaddr_tap tapfd ha w)))
           = load off_sa_data ETH_ALEN (as_ifreq reply)
        /\ length (load off_sa_data ETH_ALEN (as_ifreq reply)) = 6%nat
        /\ skipn ETH_ALEN (snd (fst (gethwaddr_tap tapfd ha w)))
           = skipn ETH_ALEN ha).
Proof.
  rewrite gethwaddr_tap_run.
  destruct (sys_ioctl_ifr (w_kernel w) tapfd SIOCGIFHWADDR req_blank)
    as [[k' r] reply].
  exists k', r, reply. split; [reflexivity|].
  assert (L : length (load off_sa_data ETH_ALEN (as_ifreq reply)) = ETH_ALEN).
  { apply length_load. rewrite length_as_ifreq.
    unfold off_sa_data, off_ifr_ifru, ETH_ALEN, sizeof_ifreq. lia. }
  split.
  - destruct (r <? 0); cbn [snd]; apply issued_logged.
  - intros P. destruct (Z.ltb_spec r 0) as [N|_]; [lia|]. cbn [fst snd].
    unfold memcpy. fold (load off_sa_data ETH_ALEN (as_ifreq reply)).
    repeat split.
    + rewrite firstn_app, L, Nat.sub_diag, firstn_all2 by lia.
      simpl. apply app_nil_r.
    + exact L.
    + rewrite skipn_app, L, Nat.sub_diag, skipn_all2 by lia. reflexivity.
Qed.

(** ** Failure *)

(** C9.  Each of the four functions with an output parameter makes one
    request; when it fails, the function returns the kernel's [errno] (not 0
    on a host that sets [errno] as POSIX says) and the object behind the
    output pointer is what it was at the call. *)
Theorem get_failure_leaves_output {H : Host} (w : world) :
  (forall skfd name mtu, exists e,
      issued w (snd (getmtu_tap skfd name mtu w)) = [e]
      /\ (sys_ret e < 0 ->
          fst (getmtu_tap skfd name mtu w)
          = (sys_errno (w_kernel (snd (getmtu_tap skfd name mtu w))), mtu)
          /\ (errno_law H -> fst (fst (getmtu_tap skfd name mtu w)) <> 0)))
  /\ (forall skfd name ipaddr, exists e,
      issued w (snd (getipaddr_tap skfd name ipaddr w)) = [e]
      /\ (sys_ret e < 0 ->
          fst (getipaddr_tap skfd name ipaddr w)
          = (sys_errno (w_kernel (snd (getipaddr_tap skfd name ipaddr w))), ipaddr)
          /\ (errno_law H -> fst (fst (getipaddr_tap skfd name ipaddr w)) <> 0)))
  /\ (forall tapfd ha, exists e,
      issued w (snd (gethwaddr_tap tapfd ha w)) = [e]
      /\ (sys_ret e < 0 ->
          fst (gethwaddr_tap tapfd ha w)
          = (sys_errno (w_kernel (snd (gethwaddr_tap tapfd ha w))), ha)
          /\ (errno_law H -> fst (fst (gethwaddr_tap tapfd ha w)) <> 0)))
  /\ (forall tapfd name, exists e,
      issued w (snd (getname_tap tapfd name w)) = [e]
      /\ (sys_ret e < 0 ->
          fst (getname_tap tapfd name w)
          = (sys_errno (w_kernel (snd (getname_tap tapfd name w))), name)
          /\ (errno_law H -> fst (fst (getname_tap tapfd name w)) <> 0))).
Proof.
  repeat split; intros.
  - rewrite getmtu_tap_run.
    destruct (sys_ioctl_ifr _ _ _ _) as [[k' r] reply] eqn:E.
    exists (Sys_ioctl_ifr skfd SIOCGIFMTU (req_named name) r).
    cbn [fst snd sys_ret]. rewrite issued_logged. split; [reflexivity|].
    intros N. destruct (Z.ltb_spec r 0); [|lia]. cbn [fst].
    split; [reflexivity|]. intros L. exact (L _ _ _ _ _ _ _ E N).
  - rewrite getipaddr_tap_run.
    destruct (sys_ioctl_ifr _ _ _ _) as [[k' r] reply] eqn:E.
    exists (Sys_ioctl_ifr skfd SIOCGIFADDR (req_named name) r).
    cbn [fst snd sys_ret]. rewrite issued_logged. split; [reflexivity|].
    intros N. destruct (Z.ltb_spec r 0); [|lia]. cbn [fst].
    split; [reflexivity|]. intros L. exact (L _ _ _ _ _ _ _ E N).
  - rewrite gethwaddr_tap_run.
    destruct (sys_ioctl_ifr _ _ _ _) as [[k' r] reply] eqn:E.
    exists (Sys_ioctl_ifr tapfd SIOCGIFHWADDR req_blank r).
    cbn [fst snd sys_ret]. rewrite issued_logged. split; [reflexivity|].
    intros N. destruct (Z.ltb_spec r 0); [|lia]. cbn [fst].
    split; [reflexivity|]. intros L. exact (L _ _ _ _ _ _ _ E N).
  - rewrite getname_tap_run.
    destruct (sys_ioctl_ifr _ _ _ _) as [[k' r] reply] eqn:E.
    exists (Sys_ioctl_ifr tapfd TUNGETIFF req_blank r).
    cbn [fst snd sys_ret]. rewrite issued_logged. split; [reflexivity|].
    intros N. destruct (Z.ltb_spec r 0); [|lia]. cbn [fst].
    split; [reflexivity|]. intros L. exact (L _ _ _ _ _ _ _ E N).
Qed.

(** ** Residual memory *)

(** C10.  The record a call builds and hands to the kernel first is the one
    [built_request] writes out from the arguments of the call (and the byte
    order of the host): it is the same in any two worlds.  And two calls with
    the same arguments on the same kernel state make the same system calls,
    with the same records byte for byte, and return the same values,
    whatever bytes lay on the stack and whatever was called before. *)
Theorem requests_deterministic {H : Host} (c : call) :
  (forall w : world,
      first_request (issued w (snd (invoke c w))) = built_request byte_order c)
  /\ (forall w1 w2 : world,
      first_request (issued w1 (snd (invoke c w1)))
      = first_request (issued w2 (snd (invoke c w2))))
  /\ (forall (k : kernel) tr1 st1 tr2 st2,
      let w1 := {| w_kernel := k; w_trace := tr1; w_stack := st1 |} in
      let w2 := {| w_kernel := k; w_trace := tr2; w_stack := st2 |} in
      issued w1 (snd (invoke c w1)) = issued w2 (snd (invoke c w2))
      /\ fst (invoke c w1) = fst (invoke c w2)
      /\ w_kernel (snd (invoke c w1)) = w_kernel (snd (invoke c w2))).
Proof.
  split; [apply invoke_first_request|].
  split; [intros w1 w2; now rewrite !invoke_first_request|].
  intros k tr1 st1 tr2 st2.
  intros w1 w2.
  assert (FL : forall skfd name flags set,
    issued w1 (snd (let (r, w') := setflags_tap skfd name flags set w1 in
                    ((r, Out_none), w')))
    = issued w2 (snd (let (r, w') := setflags_tap skfd name flags set w2 in
                      ((r, Out_none), w')))
    /\ fst (let (r, w') := setflags_tap skfd name flags set w1 in
            ((r, Out_none), w'))
       = fst (let (r, w') := setflags_tap skfd name flags set w2 in
              ((r, Out_none), w'))
    /\ w_kernel (snd (let (r, w') := setflags_tap skfd name flags set w1 in
                      ((r, Out_none), w')))
       = w_kernel (snd (let (r, w') := setflags_tap skfd name flags set w2 in
                        ((r, Out_none), w')))).
  { intros skfd name flags set. rewrite !setflags_tap_run_raw.
    cbn [w_kernel w1 w2].
    destruct (sys_ioctl_ifr k skfd SIOCGIFFLAGS (req_named name))
      as [[k1 r1] reply].
    cbv zeta. destruct (r1 <? 0).
    - cbn [fst snd]. rewrite !issued_logged. now repeat split.
    - destruct (sys_ioctl_ifr k1 skfd SIOCSIFFLAGS _) as [[k2 r2] reply2].
      cbn [fst snd]. rewrite !issued_logged2. now repeat split. }
  destruct c as [fd|skfd name mtu|skfd name a|skfd name a|skfd name a
                |skfd name flags set|skfd name|tapfd ha|tapfd name|p|fd name];
    cbv beta iota delta [invoke bind ret];
    try apply FL.
  - rewrite !setpersist_tap_run. cbn [w_kernel w1 w2].
    destruct (sys_ioctl_int _ _ _ _) as [k' r].
    cbn [fst snd]. rewrite !issued_logged. now repeat split.
  - rewrite !getmtu_tap_run. cbn [w_kernel w1 w2].
    destruct (sys_ioctl_ifr _ _ _ _) as [[k' r] reply].
    destruct (r <? 0); cbn [fst snd]; rewrite !issued_logged; now repeat split.
  - rewrite !setipaddr_tap_run. cbv zeta. cbn [w_kernel w1 w2].
    destruct (sys_ioctl_ifr _ _ _ _) as [[k' r] reply].
    cbn [fst snd]. rewrite !issued_logged. now repeat split.
  - rewrite !getipaddr_tap_run. cbn [w_kernel w1 w2].
    destruct (sys_ioctl_ifr _ _ _ _) as [[k' r] reply].
    destruct (r <? 0); cbn [fst snd]; rewrite !issued_logged; now repeat split.
  - rewrite !setnetmask_tap_run. cbv zeta. cbn [w_kernel w1 w2].
    destruct (sys_ioctl_ifr _ _ _ _) as [[k' r] reply].
    cbn [fst snd]. rewrite !issued_logged. now repeat split.
  - rewrite !gethwaddr_tap_run. cbn [w_kernel w1 w2].
    destruct (sys_ioctl_ifr _ _ _ _) as [[k' r] reply].
    destruct (r <? 0); cbn [fst snd]; rewrite !issued_logged; now repeat split.
  - rewrite !getname_tap_run. cbn [w_kernel w1 w2].
    destruct (sys_ioctl_ifr _ _ _ _) as [[k' r] reply].
    destruct (r <? 0); cbn [fst snd]; rewrite !issued_logged; now repeat split.
  - destruct p as [v|].
    + rewrite !set_tap_run. cbn [w_kernel w1 w2].
      destruct (sys_socket _ _ _ _) as [k' fd].
      destruct (fd <? 0); cbn [fst snd]; rewrite !issued_logged; now repeat split.
    + cbn [set_tap ret fst snd]. rewrite !issued_same. now repeat split.
  - rewrite !set_tap_if_run. cbv zeta. cbn [w_kernel w1 w2].
    destruct (sys_ioctl_ifr _ _ _ _) as [[k' r] reply].
    cbn [fst snd]. rewrite !issued_logged. now repeat split.
Qed.

(** ** The properties at work on the reference host *)

(** The scenario of the spec, on either byte order: every call returns 0, the
    kernel names the interface [tap0], the address read back is 10.0.0.1, and
    the interface ends with flags [IFF_UP | IFF_RUNNING]. *)
Example scenario_runs :
  forall e,
    fst (Ref.scenario e)
    = ([0; 0; 0; 0; 0; 0; 0], Ref.tap0, [Byte.x0a; Byte.x00; Byte.x00; Byte.x01])
    /\ option_map Ref.if_flags (Ref.if_find Ref.tap0 (Ref.k_ifaces (snd (Ref.scenario e))))
       = Some (Z.lor IFF_UP IFF_RUNNING).
Proof. intros []; vm_compute; split; reflexivity. Qed.

(** [setup_tap] on the attached interface of the reference host, whose flags
    are 0: the word written back is [IFF_UP | IFF_RUNNING]. *)
Lemma setflags_tap_read_modify_write_witness :
  0 <= IFF_UP < 2 ^ 16
  /\ exists q r2,
       issued (Ref.ready LittleEndian [])
         (snd (@setup_tap (Ref.host LittleEndian) 4 Ref.tap0 (Ref.ready LittleEndian [])))
       = [Sys_ioctl_ifr 4 SIOCGIFFLAGS (req_named Ref.tap0) 0;
          Sys_ioctl_ifr 4 SIOCSIFFLAGS q r2]
       /\ dec_u LittleEndian (load off_ifr_flags 2 q) = 0x41.
Proof.
  assert (R : 0 <= IFF_UP < 2 ^ 16) by (unfold IFF_UP; lia).
  split; [exact R|].
  destruct (@setflags_tap_read_modify_write (Ref.host LittleEndian)
              (Ref.ready LittleEndian []) 4 Ref.tap0 IFF_UP 1
              (fst (fst (Ref.ioctl_ifr LittleEndian
                           (w_kernel (Ref.ready LittleEndian [])) 4 SIOCGIFFLAGS
                           (req_named Ref.tap0))))
              0
              (snd (Ref.ioctl_ifr LittleEndian
                      (w_kernel (Ref.ready LittleEndian [])) 4 SIOCGIFFLAGS
                      (req_named Ref.tap0)))
              R)
    as [_ (q & r2 & A & B & _)].
  - vm_compute. reflexivity.
  - lia.
  - exists q, r2. split; [exact A|]. etransitivity; [exact B|]. vm_compute. reflexivity.
Defined.

(** On the big-endian reference host: 10.0.0.1 set and read back, and an MTU
    of 1400 set by a raw request and read back. *)
Lemma set_then_get_round_trip_witness :
  (0 <= 0x0a000001 < 2 ^ 32
   /\ fst (@getipaddr_tap (Ref.host BigEndian) 4 Ref.tap0 0
             (snd (@setipaddr_tap (Ref.host BigEndian) 4 Ref.tap0 0x0a000001
                     (Ref.ready BigEndian []))))
      = (0, 0x0a000001))
  /\ (- 2 ^ 31 <= 1400 < 2 ^ 31
      /\ fst (@getmtu_tap (Ref.host BigEndian) 4 Ref.tap0 0
                (logged (Ref.ready BigEndian [])
                   (fst (fst (Ref.ioctl_ifr BigEndian
                                (w_kernel (Ref.ready BigEndian [])) 4 SIOCSIFMTU
                                (store off_ifr_mtu (enc BigEndian 4 1400)
                                   (req_named Ref.tap0)))))
                   (Sys_ioctl_ifr 4 SIOCSIFMTU
                      (store off_ifr_mtu (enc BigEndian 4 1400)
                         (req_named Ref.tap0)) 0)))
         = (0, 1400)).
Proof.
  assert (R : 0 <= 0x0a000001 < 2 ^ 32) by lia.
  assert (R' : - 2 ^ 31 <= 1400 < 2 ^ 31) by lia.
  pose proof (@set_then_get_round_trip (Ref.host BigEndian)
                (RefFacts.ref_addr_law BigEndian)
                (RefFacts.ref_mtu_law BigEndian)) as [TA TM].
  split; (split; [assumption|]).
  - refine (proj2 (TA (Ref.ready BigEndian []) 4 Ref.tap0 0x0a000001 0 R _)).
    vm_compute. constructor; [discriminate|constructor].
  - refine (TM (Ref.ready BigEndian []) 4 Ref.tap0 1400 _ _ 0
              (snd (Ref.ioctl_ifr BigEndian
                      (w_kernel (Ref.ready BigEndian [])) 4 SIOCSIFMTU
                      (store off_ifr_mtu (enc BigEndian 4 1400)
                         (req_named Ref.tap0))))
              0 R' _ _ _ _ _).
    + reflexivity.
    + reflexivity.
    + reflexivity.
    + vm_compute. reflexivity.
    + lia.
Defined.

(** [getmtu_tap] on an interface the reference host does not have. *)
Lemma errno_convention_witness :
  Call_getmtu_tap 4 Ref.long_name 0 <> Call_set_tap None
  /\ exists evs e,
       issued (Ref.ready LittleEndian [])
         (snd (@invoke (Ref.host LittleEndian) (Call_getmtu_tap 4 Ref.long_name 0)
                 (Ref.ready LittleEndian [])))
       = evs ++ [e]
       /\ Forall (fun x => 0 <= sys_ret x) evs
       /\ (0 <= sys_ret e ->
           fst (fst (@invoke (Ref.host LittleEndian)
                       (Call_getmtu_tap 4 Ref.long_name 0)
                       (Ref.ready LittleEndian []))) = 0)
       /\ (sys_ret e < 0 ->
           fst (fst (@invoke (Ref.host LittleEndian)
                       (Call_getmtu_tap 4 Ref.long_name 0)
                       (Ref.ready LittleEndian [])))
           = sys_errno
               (w_kernel
                  (snd (@invoke (Ref.host LittleEndian)
                          (Call_getmtu_tap 4 Ref.long_name 0)
                          (Ref.ready LittleEndian []))))).
Proof.
  assert (N : Call_getmtu_tap 4 Ref.long_name 0 <> Call_set_tap None) by discriminate.
  split; [exact N|].
  exact (@errno_convention (Ref.host LittleEndian)
           (Call_getmtu_tap 4 Ref.long_name 0) (Ref.ready LittleEndian []) N).
Defined.

(** C3 as stated fails: on the reference host, [set_tap] on a NULL pointer
    returns -1 while [errno] is 0 and no system call was made; so it is not
    true that every call returns 0 or the kernel's [errno]. *)
Lemma set_tap_null_outside_errno_convention :
  fst (fst (@invoke (Ref.host LittleEndian) (Call_set_tap None)
              (Ref.ready LittleEndian []))) = -1
  /\ sys_errno (w_kernel (snd (@invoke (Ref.host LittleEndian) (Call_set_tap None)
                                 (Ref.ready LittleEndian [])))) = 0
  /\ issued (Ref.ready LittleEndian [])
       (snd (@invoke (Ref.host LittleEndian) (Call_set_tap None)
               (Ref.ready LittleEndian []))) = []
  /\ ~ (forall (H : Host) (c : call) (w : world),
           fst (fst (invoke c w)) = 0
           \/ fst (fst (invoke c w)) = sys_errno (w_kernel (snd (invoke c w)))).
Proof.
  split; [reflexivity|]. split; [reflexivity|]. split; [reflexivity|].
  intros P.
  destruct (P (Ref.host LittleEndian) (Call_set_tap None) (Ref.ready LittleEndian []))
    as [E|E]; vm_compute in E; discriminate.
Qed.

(** [set_tap_if] with a name of seventeen bytes: the request carries
    sixteen. *)
Lemma name_copied_or_truncated_witness :
  name_of_call (Call_set_tap_if 3 Ref.long_name) = Some Ref.long_name
  /\ exists fd request q r rest,
       issued (Ref.start LittleEndian [])
         (snd (@invoke (Ref.host LittleEndian) (Call_set_tap_if 3 Ref.long_name)
                 (Ref.start LittleEndian [])))
       = Sys_ioctl_ifr fd request q r :: rest
       /\ load off_ifr_name IFNAMSIZ q = repeat Byte.x61 16.
Proof.
  split; [reflexivity|].
  destruct (@name_copied_or_truncated (Ref.host LittleEndian)
              (Call_set_tap_if 3 Ref.long_name) Ref.long_name
              (Ref.start LittleEndian []) eq_refl)
    as (fd & request & q & r & rest & A & B & _).
  exists fd, request, q, r, rest. split; [exact A|exact B].
Defined.

(** C5 as stated fails: for a requested name of seventeen bytes the name
    field of the attach request holds sixteen of them, so it is not the
    requested name. *)
Lemma set_tap_if_long_name_cut :
  exists q r,
    issued (Ref.start LittleEndian [])
      (snd (@set_tap_if (Ref.host LittleEndian) 3 Ref.long_name
              (Ref.start LittleEndian [])))
    = [Sys_ioctl_ifr 3 TUNSETIFF q r]
    /\ load off_ifr_name IFNAMSIZ q = repeat Byte.x61 16
    /\ c_str Ref.long_name = repeat Byte.x61 17
    /\ c_str (load off_ifr_name IFNAMSIZ q) <> c_str Ref.long_name.
Proof.
  eexists. eexists. split; [vm_compute; reflexivity|].
  split; [reflexivity|]. split; [reflexivity|].
  vm_compute. discriminate.
Qed.

(** * Further properties of [tap.c] *)

(** ** Strings in a field of [IFNAMSIZ] bytes *)

Lemma c_str_nonzero src : Forall (fun c => c <> Byte.x00) (c_str src).
Proof.
  induction src as [|c rest IH]; [constructor|].
  simpl. destruct (Byte.eqb c Byte.x00) eqn:E; [constructor|].
  constructor; [|exact IH].
  intros ->. discriminate.
Qed.

Lemma length_c_str src : (length (c_str src) <= length src)%nat.
Proof.
  induction src as [|c rest IH]; [reflexivity|].
  simpl. destruct (Byte.eqb c Byte.x00); simpl; lia.
Qed.

(** A field without NUL is its own string. *)
Lemma c_str_full src : length (c_str src) = length src -> c_str src = src.
Proof.
  induction src as [|c rest IH]; [reflexivity|].
  simpl. destruct (Byte.eqb c Byte.x00); simpl; [discriminate|].
  intros E. f_equal. apply IH. lia.
Qed.

Lemma c_str_app_zeros a k :
  Forall (fun c => c <> Byte.x00) a -> c_str (a ++ zeros k) = a.
Proof.
  induction 1 as [|c rest Hc _ IH]; simpl.
  - destruct k; reflexivity.
  - destruct (Byte.eqb c Byte.x00) eqn:E.
    + apply Byte.byte_dec_bl in E. contradiction.
    + now rewrite IH.
Qed.

Lemma Forall_firstn_nonzero n (a : list byte) :
  Forall (fun c => c <> Byte.x00) a ->
  Forall (fun c => c <> Byte.x00) (firstn n a).
Proof.
  intros F. revert n. induction F as [|c rest Hc _ IH]; intros [|n]; simpl;
    constructor; auto.
Qed.

(** The string [strncpy] leaves is the source string cut to [n] bytes. *)
Lemma c_str_strncpy_bytes n src :
  c_str (strncpy_bytes n src) = firstn n (c_str src).
Proof.
  rewrite strncpy_bytes_c_str, firstn_app, firstn_zeros by lia.
  apply c_str_app_zeros, Forall_firstn_nonzero, c_str_nonzero.
Qed.

(** Copying what [strncpy] wrote, followed by anything, writes the same. *)
Lemma strncpy_bytes_idem n : forall src rest,
  strncpy_bytes n (strncpy_bytes n src ++ rest) = strncpy_bytes n src.
Proof.
  induction n as [|n IH]; intros src rest; [reflexivity|].
  destruct src as [|c src'].
  - simpl. now rewrite strncpy_bytes_nil.
  - simpl. destruct (Byte.eqb c Byte.x00) eqn:E.
    + simpl. now rewrite strncpy_bytes_nil.
    + simpl. rewrite E. f_equal. apply IH.
Qed.

(** [strncpy] sees of its source the first [n] bytes of the string only. *)
Lemma strncpy_bytes_prefix n src :
  strncpy_bytes n src = firstn n (firstn n (c_str src) ++ zeros n).
Proof.
  rewrite strncpy_bytes_c_str, !firstn_app, firstn_firstn, Nat.min_id.
  f_equal. rewrite length_firstn.
  destruct (Nat.le_gt_cases n (length (c_str src))) as [L|L].
  - replace (n - length (c_str src))%nat with 0%nat by lia.
    replace (n - Nat.min n (length (c_str src)))%nat with 0%nat by lia.
    reflexivity.
  - replace (Nat.min n (length (c_str src))) with (length (c_str src)) by lia.
    reflexivity.
Qed.

Lemma c_str_app_nonzero a b :
  Forall (fun c => c <> Byte.x00) a -> c_str (a ++ b) = a ++ c_str b.
Proof.
  induction 1 as [|c rest Hc _ IH]; [reflexivity|].
  simpl. destruct (Byte.eqb c Byte.x00) eqn:E.
  - apply Byte.byte_dec_bl in E. contradiction.
  - now rewrite IH.
Qed.

(** The record a call builds carries its name as [strncpy] leaves it. *)
Lemma built_request_name e c name :
  name_of_call c = Some name ->
  exists q, built_request e c = Some q
            /\ load off_ifr_name IFNAMSIZ q = strncpy_bytes IFNAMSIZ name.
Proof.
  intros N.
  destruct c; try discriminate; injection N as <-; cbn [built_request];
    eexists; (split; [reflexivity|]);
    auto using req_named_name, req_sockaddr_name, req_attach_name.
Qed.

(** ** The name the kernel reports *)

(** X1.  When the [TUNGETIFF] request of [getname_tap] does not fail, the
    function returns 0 and has written exactly [IFNAMSIZ] bytes: the string
    in the kernel's [ifr_name], NUL-padded when it is shorter than the field.
    When the kernel's name fills the field, no terminator is written: the
    sixteen bytes are all non-NUL and the string in the caller's buffer runs
    on into the bytes the buffer held beyond them. *)
Theorem getname_tap_output {H : Host} (tapfd : Z) (name : list byte) (w : world) :
  exists k' r reply,
    sys_ioctl_ifr (w_kernel w) tapfd TUNGETIFF req_blank = (k', r, reply)
    /\ (0 <= r ->
        let field := load off_ifr_name IFNAMSIZ (as_ifreq reply) in
        let out := snd (fst (getname_tap tapfd name w)) in
        fst (fst (getname_tap tapfd name w)) = 0
        /\ skipn IFNAMSIZ out = skipn IFNAMSIZ name
        /\ c_str (firstn IFNAMSIZ out) = c_str field
        /\ ((length (c_str field) < IFNAMSIZ)%nat ->
            firstn IFNAMSIZ out
            = c_str field ++ zeros (IFNAMSIZ - length (c_str field))
            /\ c_str out = c_str field)
        /\ (length (c_str field) = IFNAMSIZ ->
            firstn IFNAMSIZ out = field
            /\ Forall (fun c => c <> Byte.x00) (firstn IFNAMSIZ out)
            /\ c_str out = field ++ c_str (skipn IFNAMSIZ name))).
Proof.
  rewrite getname_tap_run.
  destruct (sys_ioctl_ifr (w_kernel w) tapfd TUNGETIFF req_blank)
    as [[k' r] reply].
  exists k', r, reply. split; [reflexivity|].
  intros P field out.
  assert (LF : length field = IFNAMSIZ).
  { apply length_load. rewrite length_as_ifreq.
    unfold off_ifr_name, sizeof_ifreq, IFNAMSIZ. lia. }
  assert (O : out = strncpy_bytes IFNAMSIZ field ++ skipn IFNAMSIZ name).
  { unfold out. destruct (Z.ltb_spec r 0); [lia|reflexivity]. }
  assert (F16 : firstn IFNAMSIZ out = strncpy_bytes IFNAMSIZ field).
  { rewrite O, firstn_app, length_strncpy_bytes, Nat.sub_diag.
    rewrite firstn_all2 by (rewrite length_strncpy_bytes; lia).
    simpl. apply app_nil_r. }
  pose proof (length_c_str field) as LC. rewrite LF in LC.
  split; [destruct (Z.ltb_spec r 0); [lia|reflexivity]|].
  split.
  { rewrite O, skipn_app, length_strncpy_bytes, Nat.sub_diag.
    rewrite skipn_all2 by (rewrite length_strncpy_bytes; lia). reflexivity. }
  split.
  { rewrite F16, c_str_strncpy_bytes. apply firstn_all2. exact LC. }
  split.
  - intros L. rewrite F16, O. rewrite strncpy_bytes_fits by lia. split; [reflexivity|].
    replace (IFNAMSIZ - length (c_str field))%nat
      with (S (IFNAMSIZ - length (c_str field) - 1)) by lia.
    rewrite <- app_assoc, c_str_app_nonzero by apply c_str_nonzero.
    simpl. apply app_nil_r.
  - intros L.
    assert (CF : c_str field = field) by (apply c_str_full; lia).
    assert (SF : strncpy_bytes IFNAMSIZ field = field).
    { rewrite strncpy_bytes_long by lia. rewrite CF. apply firstn_all2. lia. }
    assert (NZ : Forall (fun c => c <> Byte.x00) field)
      by (rewrite <- CF; apply c_str_nonzero).
    rewrite F16, O, SF. repeat split; [exact NZ|].
    now apply c_str_app_nonzero.
Qed.

(** X2.  The buffer [getname_tap] filled can be passed as [name] to any
    function that takes one: the record built then names the interface the
    kernel named, whatever else the buffer holds and even when the name was
    written without terminator. *)
Theorem name_from_getname {H : Host} (tapfd : Z) (buf : list byte) (w : world)
    (c : call) (w' : world) k' r reply :
  sys_ioctl_ifr (w_kernel w) tapfd TUNGETIFF req_blank = (k', r, reply) ->
  0 <= r ->
  name_of_call c = Some (snd (fst (getname_tap tapfd buf w))) ->
  exists q,
    first_request (issued w' (snd (invoke c w'))) = Some q
    /\ load off_ifr_name IFNAMSIZ q
       = strncpy_bytes IFNAMSIZ (load off_ifr_name IFNAMSIZ (as_ifreq reply))
    /\ c_str (load off_ifr_name IFNAMSIZ q)
       = c_str (load off_ifr_name IFNAMSIZ (as_ifreq reply)).
Proof.
  intros E P N.
  rewrite getname_tap_run, E in N. cbn [fst snd] in N.
  destruct (Z.ltb_spec r 0) as [|_]; [lia|]. cbn [fst snd] in N.
  destruct (built_request_name byte_order c _ N) as (q & B & Nq).
  exists q. rewrite invoke_first_request. split; [exact B|].
  unfold strncpy in Nq. rewrite strncpy_bytes_idem in Nq.
  split; [exact Nq|].
  rewrite Nq, c_str_strncpy_bytes. apply firstn_all2.
  etransitivity; [apply length_c_str|].
  rewrite length_load; [reflexivity|].
  rewrite length_as_ifreq. unfold off_ifr_name, sizeof_ifreq, IFNAMSIZ. lia.
Qed.

(** X3.  A call sees of its [name] argument only the first [IFNAMSIZ] bytes
    of the string: two names that agree on them give the same system calls,
    the same results and the same world, so they address the same
    interface. *)
Theorem names_agreeing_on_field {H : Host} (c : call) (n1 n2 : list byte) (w : world) :
  firstn IFNAMSIZ (c_str n1) = firstn IFNAMSIZ (c_str n2) ->
  invoke (with_name c n1) w = invoke (with_name c n2) w.
Proof.
  intros E.
  assert (S : strncpy_bytes IFNAMSIZ n1 = strncpy_bytes IFNAMSIZ n2)
    by (now rewrite (strncpy_bytes_prefix _ n1), (strncpy_bytes_prefix _ n2), E).
  destruct c; cbn [with_name invoke]; try reflexivity;
    unfold getmtu_tap, setipaddr_tap, getipaddr_tap, setnetmask_tap,
      setup_tap, setflags_tap, set_tap_if;
    now rewrite S.
Qed.

(** ** What the get functions store *)

Lemma dec_s_range e bs :
  (0 < length bs)%nat ->
  - 2 ^ (8 * Z.of_nat (length bs) - 1) <= dec_s e bs
  < 2 ^ (8 * Z.of_nat (length bs) - 1).
Proof.
  intros L. unfold dec_s. pose proof (dec_u_range e bs) as R.
  set (w := 8 * Z.of_nat (length bs)) in *.
  assert (P : 2 ^ w = 2 * 2 ^ (w - 1)).
  { rewrite <- Z.pow_succ_r by lia. f_equal. lia. }
  destruct (Z.ltb_spec (dec_u e bs) (2 ^ (w - 1))); lia.
Qed.

(** X4.  When their request does not fail, [getipaddr_tap] and [getmtu_tap]
    return 0 and store the integer whose bytes in memory are the four bytes
    the kernel left in [sin_addr] and in [ifr_mtu]: an [unsigned int] for
    the address (no byte is swapped, and [sin_family] is not looked at), an
    [int] for the MTU, negative when the kernel's top bit is set.  What the
    output held before is lost. *)
Theorem get_values_as_stored {H : Host} (w : world) :
  (forall skfd name v, exists k' r reply,
      sys_ioctl_ifr (w_kernel w) skfd SIOCGIFADDR (req_named name) = (k', r, reply)
      /\ (0 <= r -> exists A,
            fst (getipaddr_tap skfd name v w) = (0, A)
            /\ 0 <= A < 2 ^ 32
            /\ enc byte_order 4 A = load off_sin_addr 4 (as_ifreq reply)))
  /\ (forall skfd name v, exists k' r reply,
      sys_ioctl_ifr (w_kernel w) skfd SIOCGIFMTU (req_named name) = (k', r, reply)
      /\ (0 <= r -> exists m,
            fst (getmtu_tap skfd name v w) = (0, m)
            /\ - 2 ^ 31 <= m < 2 ^ 31
            /\ enc byte_order 4 m = load off_ifr_mtu 4 (as_ifreq reply))).
Proof.
  split; intros skfd name v.
  - rewrite getipaddr_tap_run.
    destruct (sys_ioctl_ifr _ _ _ _) as [[k' r] reply].
    exists k', r, reply. split; [reflexivity|]. intros P.
    destruct (Z.ltb_spec r 0); [lia|]. cbn [fst].
    set (bs := load off_sin_addr 4 (as_ifreq reply)).
    assert (L : length bs = 4%nat).
    { apply length_load. rewrite length_as_ifreq.
      unfold off_sin_addr, off_ifr_ifru, sizeof_ifreq. lia. }
    exists (dec_u byte_order bs). split; [reflexivity|].
    pose proof (dec_u_range byte_order bs) as R.
    pose proof (enc_dec_u byte_order bs) as E.
    rewrite L in R, E. split; [exact R|exact E].
  - rewrite getmtu_tap_run.
    destruct (sys_ioctl_ifr _ _ _ _) as [[k' r] reply].
    exists k', r, reply. split; [reflexivity|]. intros P.
    destruct (Z.ltb_spec r 0); [lia|]. cbn [fst].
    set (bs := load off_ifr_mtu 4 (as_ifreq reply)).
    assert (L : length bs = 4%nat).
    { apply length_load. rewrite length_as_ifreq.
      unfold off_ifr_mtu, off_ifr_ifru, sizeof_ifreq. lia. }
    exists (dec_s byte_order bs). split; [reflexivity|].
    pose proof (dec_s_range byte_order bs) as R.
    pose proof (enc_dec_s byte_order bs) as E.
    rewrite L in R, E. split; [apply R; lia|exact E].
Qed.

(** ** The control socket *)

(** X5.  [set_tap] on a valid pointer makes one system call,
    [socket(PF_INET, SOCK_DGRAM, IPPROTO_IP)], and stores what it returned
    through the pointer before looking at it: after a failure the caller's
    variable holds the negative value, not what it held before.  The return
    value is 0 when the descriptor is not negative and [errno] otherwise. *)
Theorem set_tap_stores_descriptor {H : Host} (v : Z) (w : world) :
  exists k' fd,
    sys_socket (w_kernel w) PF_INET SOCK_DGRAM IPPROTO_IP = (k', fd)
    /\ issued w (snd (set_tap (Some v) w))
       = [Sys_socket PF_INET SOCK_DGRAM IPPROTO_IP fd]
    /\ snd (fst (set_tap (Some v) w)) = Some fd
    /\ (0 <= fd -> fst (fst (set_tap (Some v) w)) = 0)
    /\ (fd < 0 -> fst (fst (set_tap (Some v) w)) = sys_errno k')
    /\ w_kernel (snd (set_tap (Some v) w)) = k'.
Proof.
  rewrite set_tap_run.
  destruct (sys_socket (w_kernel w) PF_INET SOCK_DGRAM IPPROTO_IP) as [k' fd].
  exists k', fd. split; [reflexivity|].
  destruct (Z.ltb_spec fd 0); cbn [fst snd]; rewrite issued_logged;
    repeat split; intros; try reflexivity; lia.
Qed.

(** ** Flags: failure, and nothing to change *)

(** X6.  When the read of [setflags_tap] fails, the function makes no other
    system call (nothing is written), returns the [errno] of the read and
    leaves the kernel as the read left it; when the read does not fail the
    function makes exactly one more call, the write.  This holds for every
    value of [flags] and [set]. *)
Theorem setflags_tap_failed_read {H : Host} (skfd : Z) (name : list byte)
    (flags set : Z) (w : world) :
  exists k1 r1 reply,
    sys_ioctl_ifr (w_kernel w) skfd SIOCGIFFLAGS (req_named name) = (k1, r1, reply)
    /\ (r1 < 0 ->
        issued w (snd (setflags_tap skfd name flags set w))
        = [Sys_ioctl_ifr skfd SIOCGIFFLAGS (req_named name) r1]
        /\ fst (setflags_tap skfd name flags set w) = sys_errno k1
        /\ w_kernel (snd (setflags_tap skfd name flags set w)) = k1)
    /\ (0 <= r1 -> exists q r2,
        issued w (snd (setflags_tap skfd name flags set w))
        = [Sys_ioctl_ifr skfd SIOCGIFFLAGS (req_named name) r1;
           Sys_ioctl_ifr skfd SIOCSIFFLAGS q r2]).
Proof.
  rewrite setflags_tap_run_raw.
  destruct (sys_ioctl_ifr (w_kernel w) skfd SIOCGIFFLAGS (req_named name))
    as [[k1 r1] reply].
  exists k1, r1, reply. split; [reflexivity|]. cbv zeta.
  destruct (Z.ltb_spec r1 0) as [N|P]; split; intros; try lia.
  - cbn [fst snd]. now rewrite issued_logged.
  - destruct (sys_ioctl_ifr k1 skfd SIOCSIFFLAGS _) as [[k2 r2] reply2].
    exists (stored_writeback byte_order (as_ifreq reply) flags set), r2.
    cbn [snd]. apply issued_logged2.
Qed.

Lemma store_load off n m :
  (off + n <= length m)%nat -> store off (load off n m) m = m.
Proof.
  intros L. unfold store.
  assert (LL : length (load off n m) = n) by now apply length_load.
  rewrite LL. unfold load.
  rewrite <- (firstn_skipn off m) at 4. f_equal.
  rewrite Nat.add_comm, <- skipn_skipn. apply firstn_skipn.
Qed.

Lemma new_flags_none F set : new_flags F 0 set = F.
Proof.
  unfold new_flags. destruct (set =? 0).
  - change (Z.lnot 0) with (-1). apply Z.land_m1_r.
  - apply Z.lor_0_r.
Qed.

(** X7.  With an empty bit set ([flags] = 0), setting and clearing alike
    write back the record exactly as the kernel returned it for the read. *)
Theorem setflags_tap_no_bits {H : Host} (skfd : Z) (name : list byte)
    (set : Z) (w : world) :
  exists k1 r1 reply,
    sys_ioctl_ifr (w_kernel w) skfd SIOCGIFFLAGS (req_named name) = (k1, r1, reply)
    /\ (0 <= r1 -> exists r2,
        issued w (snd (setflags_tap skfd name 0 set w))
        = [Sys_ioctl_ifr skfd SIOCGIFFLAGS (req_named name) r1;
           Sys_ioctl_ifr skfd SIOCSIFFLAGS (as_ifreq reply) r2]).
Proof.
  rewrite setflags_tap_run by lia.
  destruct (sys_ioctl_ifr (w_kernel w) skfd SIOCGIFFLAGS (req_named name))
    as [[k1 r1] reply].
  exists k1, r1, reply. split; [reflexivity|]. intros P. cbv zeta.
  destruct (Z.ltb_spec r1 0); [lia|].
  assert (W : writeback byte_order (as_ifreq reply) 0 set = as_ifreq reply).
  { unfold writeback. rewrite new_flags_none.
    assert (L2 : length (load off_ifr_flags 2 (as_ifreq reply)) = 2%nat).
    { apply length_load. rewrite length_as_ifreq.
      unfold off_ifr_flags, off_ifr_ifru, sizeof_ifreq. lia. }
    pose proof (enc_dec_u byte_order (load off_ifr_flags 2 (as_ifreq reply))) as E.
    rewrite L2 in E. rewrite E. apply store_load.
    rewrite length_as_ifreq. unfold off_ifr_flags, off_ifr_ifru, sizeof_ifreq. lia. }
  rewrite W.
  destruct (sys_ioctl_ifr k1 skfd SIOCSIFFLAGS (as_ifreq reply)) as [[k2 r2] reply2].
  exists r2. cbn [snd]. apply issued_logged2.
Qed.

(** ** The system calls of a call *)

Lemma length_stored_writeback e reply flags set :
  length reply = sizeof_ifreq ->
  length (stored_writeback e reply flags set) = sizeof_ifreq.
Proof.
  intros L. unfold stored_writeback. rewrite length_store; [exact L|].
  rewrite length_enc, L. unfold off_ifr_flags, off_ifr_ifru, sizeof_ifreq. lia.
Qed.

(** X8.  A call makes at most two system calls, and none only for [set_tap]
    on a NULL pointer.  Each is an [ioctl] on the descriptor the call was
    given and on a whole [struct ifreq], or [ioctl(fd, TUNSETPERSIST, 1)]
    (persistence is only ever turned on), or the one
    [socket(PF_INET, SOCK_DGRAM, IPPROTO_IP)] of [set_tap]. *)
Theorem syscall_profile {H : Host} (c : call) (w : world) :
  (length (issued w (snd (invoke c w))) <= 2)%nat
  /\ Forall (own_syscall c) (issued w (snd (invoke c w)))
  /\ (issued w (snd (invoke c w)) = [] <-> c = Call_set_tap None).
Proof.
  assert (FL : forall skfd name flags set c',
    fd_of_call c' = Some skfd ->
    c' <> Call_set_tap None ->
    let l := issued w (snd (let (r, w') := setflags_tap skfd name flags set w in
                            ((r, Out_none), w'))) in
    (length l <= 2)%nat /\ Forall (own_syscall c') l
    /\ (l = [] <-> c' = Call_set_tap None)).
  { intros skfd name flags set c' F NN. rewrite setflags_tap_run_raw.
    destruct (sys_ioctl_ifr (w_kernel w) skfd SIOCGIFFLAGS (req_named name))
      as [[k1 r1] reply].
    cbv zeta. destruct (r1 <? 0).
    - cbn [snd]. rewrite issued_logged. cbn [length].
      split; [lia|]. split.
      + repeat constructor; [exact F|apply length_req_named].
      + split; [discriminate|contradiction].
    - destruct (sys_ioctl_ifr k1 skfd SIOCSIFFLAGS _) as [[k2 r2] reply2].
      cbn [snd]. rewrite issued_logged2. cbn [length].
      split; [lia|]. split.
      + repeat constructor; try exact F; [apply length_req_named|].
        apply length_stored_writeback, length_as_ifreq.
      + split; [discriminate|contradiction]. }
  assert (ONE : forall (e : syscall) (l : list syscall),
    l = [e] -> own_syscall c e -> c <> Call_set_tap None ->
    (length l <= 2)%nat /\ Forall (own_syscall c) l
    /\ (l = [] <-> c = Call_set_tap None)).
  { intros e l -> O NN. cbn [length]. split; [lia|].
    split; [now repeat constructor|]. split; [discriminate|contradiction]. }
  destruct c as [fd|skfd name mtu|skfd name a|skfd name a|skfd name a
                |skfd name flags set|skfd name|tapfd ha|tapfd name|p|fd name];
    cbv beta iota delta [invoke bind ret];
    try (apply FL; [reflexivity|discriminate]).
  - rewrite setpersist_tap_run.
    destruct (sys_ioctl_int _ _ _ _) as [k' r]. cbn [snd].
    eapply ONE; [apply issued_logged| |discriminate]. now repeat split.
  - rewrite getmtu_tap_run.
    destruct (sys_ioctl_ifr _ _ _ _) as [[k' r] reply].
    destruct (r <? 0); cbn [snd];
      (eapply ONE; [apply issued_logged| |discriminate]);
      (split; [reflexivity|apply length_req_named]).
  - rewrite setipaddr_tap_run. cbv zeta.
    destruct (sys_ioctl_ifr _ _ _ _) as [[k' r] reply]. cbn [snd].
    eapply ONE; [apply issued_logged| |discriminate].
    split; [reflexivity|apply length_req_sockaddr].
  - rewrite getipaddr_tap_run.
    destruct (sys_ioctl_ifr _ _ _ _) as [[k' r] reply].
    destruct (r <? 0); cbn [snd];
      (eapply ONE; [apply issued_logged| |discriminate]);
      (split; [reflexivity|apply length_req_named]).
  - rewrite setnetmask_tap_run. cbv zeta.
    destruct (sys_ioctl_ifr _ _ _ _) as [[k' r] reply]. cbn [snd].
    eapply ONE; [apply issued_logged| |discriminate].
    split; [reflexivity|apply length_req_sockaddr].
  - rewrite gethwaddr_tap_run.
    destruct (sys_ioctl_ifr _ _ _ _) as [[k' r] reply].
    destruct (r <? 0); cbn [snd];
      (eapply ONE; [apply issued_logged| |discriminate]);
      (split; [reflexivity|apply length_zeros]).
  - rewrite getname_tap_run.
    destruct (sys_ioctl_ifr _ _ _ _) as [[k' r] reply].
    destruct (r <? 0); cbn [snd];
      (eapply ONE; [apply issued_logged| |discriminate]);
      (split; [reflexivity|apply length_zeros]).
  - destruct p as [v|].
    + rewrite set_tap_run.
      destruct (sys_socket _ _ _ _) as [k' fd].
      destruct (fd <? 0); cbn [snd];
        (eapply ONE; [apply issued_logged| |discriminate]);
        now repeat split.
    + cbn [set_tap ret snd]. rewrite issued_same. cbn [length].
      split; [lia|]. split; [constructor|]. split; reflexivity.
  - rewrite set_tap_if_run. cbv zeta.
    destruct (sys_ioctl_ifr _ _ _ _) as [[k' r] reply]. cbn [snd].
    eapply ONE; [apply issued_logged| |discriminate].
    split; [reflexivity|apply length_req_attach].
Qed.

(** ** Doing it twice *)

Lemma new_flags_idem F flags set :
  new_flags (new_flags F flags set) flags set = new_flags F flags set.
Proof.
  unfold new_flags. destruct (set =? 0); apply Z.bits_inj'; intros i Hi.
  - rewrite !Z.land_spec. now destruct (Z.testbit F i), (Z.testbit (Z.lnot flags) i).
  - rewrite !Z.lor_spec. now destruct (Z.testbit F i), (Z.testbit flags i).
Qed.

Lemma writeback_word e reply flags set :
  length reply = sizeof_ifreq ->
  load off_ifr_flags 2 (writeback e reply flags set)
  = enc e 2 (new_flags (dec_u e (load off_ifr_flags 2 reply)) flags set).
Proof.
  intros L. unfold writeback.
  set (X := enc e 2 _).
  assert (LX : length X = 2%nat) by apply length_enc.
  rewrite <- LX at 1. apply load_store.
  rewrite L. unfold off_ifr_flags, off_ifr_ifru, sizeof_ifreq. lia.
Qed.

(** X9.  On a host whose kernel keeps the flags it is given and leaves the
    name of a read alone ([flags_law], [name_law]): when both requests of a
    [setflags_tap] succeed, the same call made again reads successfully and
    writes back the same flags word.  So bringing an interface up twice
    with [setup_tap] asks the kernel the same thing twice. *)
Theorem setflags_tap_idempotent {H : Host} :
  flags_law H -> name_law H ->
  forall (w : world) skfd name flags set,
    0 <= flags < 2 ^ 16 ->
    Forall (fun x => 0 <= sys_ret x)
      (issued w (snd (setflags_tap skfd name flags set w))) ->
    exists q1 ra rb q2 rc rd,
      issued w (snd (setflags_tap skfd name flags set w))
      = [Sys_ioctl_ifr skfd SIOCGIFFLAGS (req_named name) ra;
         Sys_ioctl_ifr skfd SIOCSIFFLAGS q1 rb]
      /\ issued (snd (setflags_tap skfd name flags set w))
           (snd (setflags_tap skfd name flags set
                   (snd (setflags_tap skfd name flags set w))))
         = [Sys_ioctl_ifr skfd SIOCGIFFLAGS (req_named name) rc;
            Sys_ioctl_ifr skfd SIOCSIFFLAGS q2 rd]
      /\ 0 <= rc
      /\ load off_ifr_flags 2 q2 = load off_ifr_flags 2 q1.
Proof.
  intros LF LN w skfd name flags set RB OK.
  rewrite (setflags_tap_run skfd name flags set w RB) in *.
  destruct (sys_ioctl_ifr (w_kernel w) skfd SIOCGIFFLAGS (req_named name))
    as [[k1 r1] reply] eqn:E1.
  cbv zeta in *.
  destruct (Z.ltb_spec r1 0) as [N|P].
  { cbn [snd] in OK. rewrite issued_logged in OK.
    inversion OK as [|x l S _]; subst. cbn [sys_ret] in S. lia. }
  set (q1 := writeback byte_order (as_ifreq reply) flags set) in *.
  destruct (sys_ioctl_ifr k1 skfd SIOCSIFFLAGS q1) as [[k2 r2] reply2] eqn:E2.
  cbn [snd] in *. rewrite issued_logged2 in OK.
  inversion OK as [|x l _ OK']; subst. inversion OK' as [|x l S2 _]; subst.
  cbn [sys_ret] in S2.
  assert (L : length (as_ifreq reply) = sizeof_ifreq) by apply length_as_ifreq.
  destruct (writeback_rest byte_order (as_ifreq reply) flags set L) as (A & _ & Lq).
  fold q1 in A, Lq.
  assert (SN : same_name q1 (req_named name)).
  { unfold same_name.
    change (load off_ifr_name IFNAMSIZ q1) with (firstn off_ifr_flags q1).
    rewrite A.
    change (firstn off_ifr_flags (as_ifreq reply))
      with (load off_ifr_name IFNAMSIZ (as_ifreq reply)).
    symmetry. exact (LN _ _ _ _ _ _ (length_req_named name) E1 P). }
  destruct (LF _ _ _ _ _ _ Lq E2 S2 (req_named name) (length_req_named name) SN)
    as (k3 & rc & reply3 & E3 & Pc & V).
  rewrite (setflags_tap_run skfd name flags set _ RB).
  cbn [w_kernel logged]. rewrite E3. cbv zeta.
  destruct (Z.ltb_spec rc 0) as [|_]; [lia|].
  set (q2 := writeback byte_order (as_ifreq reply3) flags set).
  destruct (sys_ioctl_ifr k3 skfd SIOCSIFFLAGS q2) as [[k4 r4] reply4].
  exists q1, r1, r2, q2, rc, r4. cbn [snd].
  rewrite !issued_logged2. repeat split; try assumption.
  unfold q2, q1.
  rewrite !writeback_word by apply length_as_ifreq.
  rewrite V. fold q1. unfold q1 at 1.
  rewrite writeback_word by apply length_as_ifreq.
  rewrite dec_u_enc, Z.mod_small.
  - now rewrite new_flags_idem.
  - apply new_flags_range; [|exact RB].
    pose proof (dec_u_range byte_order (load off_ifr_flags 2 (as_ifreq reply))) as R.
    rewrite length_load in R; [exact R|].
    rewrite L. unfold off_ifr_flags, off_ifr_ifru, sizeof_ifreq. lia.
Qed.

Module RefFlags.
Import Ref RefFacts.

Lemma ioctl_SIOCSIFFLAGS e k fd q :
  ioctl_ifr e k fd SIOCSIFFLAGS q =
  on_iface k fd (as_ifreq q) (fun _ => as_ifreq q)
    (set_flags (dec_u e (load off_ifr_flags 2 (as_ifreq q)))).
Proof. reflexivity. Qed.

Lemma ioctl_SIOCGIFFLAGS e k fd q :
  ioctl_ifr e k fd SIOCGIFFLAGS q =
  on_iface k fd (as_ifreq q)
    (fun i => store off_ifr_flags (enc e 2 (if_flags i)) (as_ifreq q))
    (fun i => i).
Proof. reflexivity. Qed.

Lemma ref_flags_law e : flags_law (host e).
Proof.
  unfold flags_law. cbn [sys_ioctl_ifr kernel byte_order host].
  intros k fd q k1 r1 reply1 Lq E Hr q' Lq' SN.
  rewrite ioctl_SIOCSIFFLAGS, (as_ifreq_exact q Lq) in E.
  destruct (on_iface_ok _ _ _ _ _ _ _ _ E Hr) as (i & S & F & -> & _).
  rewrite ioctl_SIOCGIFFLAGS, (as_ifreq_exact q' Lq').
  unfold on_iface. cbn [k_socks k_ifaces with_ifaces].
  rewrite S, (req_name_same q q' SN), if_find_update, F. cbn [option_map].
  do 3 eexists. split; [reflexivity|]. split; [lia|].
  cbn [if_flags set_flags].
  assert (L2 : length (load off_ifr_flags 2 q) = 2%nat).
  { apply length_load. rewrite Lq. unfold off_ifr_flags, off_ifr_ifru, sizeof_ifreq. lia. }
  pose proof (enc_dec_u e (load off_ifr_flags 2 q)) as R. rewrite L2 in R.
  rewrite R. rewrite <- L2 at 1.
  apply load_stored; [exact Lq'|].
  rewrite L2. unfold off_ifr_flags, off_ifr_ifru, sizeof_ifreq. lia.
Qed.

Lemma ref_name_law e : name_law (host e).
Proof.
  unfold name_law. cbn [sys_ioctl_ifr kernel byte_order host].
  intros k fd q k' r reply Lq E Hr.
  rewrite ioctl_SIOCGIFFLAGS, (as_ifreq_exact q Lq) in E.
  destruct (on_iface_ok _ _ _ _ _ _ _ _ E Hr) as (i & _ & _ & _ & ->).
  rewrite as_ifreq_exact.
  - unfold load, store, off_ifr_name. cbn [skipn].
    rewrite firstn_app, length_firstn, firstn_firstn, Lq.
    cbn [Nat.min IFNAMSIZ off_ifr_flags off_ifr_ifru sizeof_ifreq Nat.sub firstn].
    apply app_nil_r.
  - rewrite length_store; [exact Lq|].
    rewrite length_enc, Lq. unfold off_ifr_flags, off_ifr_ifru, sizeof_ifreq. lia.
Qed.

End RefFlags.

(** ** The further properties at work on the reference host *)

(** The name read back from the attached device, used to ask for its MTU. *)
Lemma name_from_getname_witness :
  exists q,
    first_request
      (issued (Ref.ready LittleEndian [])
         (snd (@invoke (Ref.host LittleEndian)
                 (Call_getmtu_tap 4
                    (snd (fst (@getname_tap (Ref.host LittleEndian) 3 (zeros 20)
                                 (Ref.ready LittleEndian [])))) 0)
                 (Ref.ready LittleEndian [])))) = Some q
    /\ c_str (load off_ifr_name IFNAMSIZ q) = Ref.tap0.
Proof.
  destruct (@name_from_getname (Ref.host LittleEndian) 3 (zeros 20)
              (Ref.ready LittleEndian [])
              (Call_getmtu_tap 4
                 (snd (fst (@getname_tap (Ref.host LittleEndian) 3 (zeros 20)
                              (Ref.ready LittleEndian [])))) 0)
              (Ref.ready LittleEndian [])
              (fst (fst (Ref.ioctl_ifr LittleEndian
                           (w_kernel (Ref.ready LittleEndian [])) 3 TUNGETIFF
                           req_blank)))
              0
              (snd (Ref.ioctl_ifr LittleEndian
                      (w_kernel (Ref.ready LittleEndian [])) 3 TUNGETIFF
                      req_blank)))
    as (q & A & _ & B).
  - vm_compute. reflexivity.
  - lia.
  - reflexivity.
  - exists q. split; [exact A|]. etransitivity; [exact B|]. vm_compute. reflexivity.
Defined.

(** Two names of seventeen bytes that differ in the last one. *)
Lemma names_agreeing_on_field_witness :
  firstn IFNAMSIZ (c_str Ref.long_name)
  = firstn IFNAMSIZ (c_str (repeat Byte.x61 16 ++ [Byte.x62]))
  /\ @invoke (Ref.host LittleEndian)
       (Call_set_tap_if 3 Ref.long_name) (Ref.start LittleEndian [])
     = @invoke (Ref.host LittleEndian)
         (Call_set_tap_if 3 (repeat Byte.x61 16 ++ [Byte.x62]))
         (Ref.start LittleEndian []).
Proof.
  assert (E : firstn IFNAMSIZ (c_str Ref.long_name)
              = firstn IFNAMSIZ (c_str (repeat Byte.x61 16 ++ [Byte.x62])))
    by reflexivity.
  split; [exact E|].
  exact (@names_agreeing_on_field (Ref.host LittleEndian)
           (Call_set_tap_if 3 []) Ref.long_name
           (repeat Byte.x61 16 ++ [Byte.x62]) (Ref.start LittleEndian []) E).
Defined.

(** [setup_tap] twice on the attached interface of the reference host. *)
Lemma setflags_tap_idempotent_witness :
  exists q1 ra rb q2 rc rd,
    issued (Ref.ready BigEndian [])
      (snd (@setup_tap (Ref.host BigEndian) 4 Ref.tap0 (Ref.ready BigEndian [])))
    = [Sys_ioctl_ifr 4 SIOCGIFFLAGS (req_named Ref.tap0) ra;
       Sys_ioctl_ifr 4 SIOCSIFFLAGS q1 rb]
    /\ issued
         (snd (@setup_tap (Ref.host BigEndian) 4 Ref.tap0 (Ref.ready BigEndian [])))
         (snd (@setup_tap (Ref.host BigEndian) 4 Ref.tap0
                 (snd (@setup_tap (Ref.host BigEndian) 4 Ref.tap0
                         (Ref.ready BigEndian [])))))
       = [Sys_ioctl_ifr 4 SIOCGIFFLAGS (req_named Ref.tap0) rc;
          Sys_ioctl_ifr 4 SIOCSIFFLAGS q2 rd]
    /\ 0 <= rc
    /\ load off_ifr_flags 2 q2 = load off_ifr_flags 2 q1.
Proof.
  refine (@setflags_tap_idempotent (Ref.host BigEndian)
            (RefFlags.ref_flags_law BigEndian) (RefFlags.ref_name_law BigEndian)
            (Ref.ready BigEndian []) 4 Ref.tap0 (Z.lor IFF_UP IFF_RUNNING) 1 _ _).
  - vm_compute. split; [discriminate|reflexivity].
  - vm_compute. constructor; [discriminate|].
    constructor; [discriminate|constructor].
Defined.
